(** * uv_manager: the resilient command executor and the environment lifecycle

  A shallow embedding of [uv_manager.py].  The program drives an external
  tool through child processes, sleeps between retries, reads a
  process-wide interruption flag and walks a cache directory.  Every such
  effect is written here as explicit state passing over a [World]; what the
  outside does (how a child process ends, whether a signal arrives while the
  program is blocked) is supplied by a [Host].

  Times are whole seconds.  Not modelled: [print] and [logger] calls (they
  neither return a value the program uses nor change what it does next),
  symbolic links, [..] in paths, and any process other than the children
  the program itself starts. *)

From Stdlib Require Import ZArith List String Ascii Bool Lia.
From Equations Require Import Equations.
Import ListNotations.

Local Open Scope string_scope.
Local Open Scope Z_scope.
Local Open Scope list_scope.

Set Implicit Arguments.

(** ** Module constants *)

Definition DEFAULT_TIMEOUT : Z := 300.
Definition MAX_RETRIES : Z := 3.
Definition RETRY_DELAY : Z := 5.

(** ** Strings *)

Module Py.

(** Python truthiness of the optional arguments the program tests with a
    bare [if x:]. *)
Definition truthy_str (o : option string) : bool :=
  match o with
  | Some s => negb (s =? "")%string
  | None => false
  end.

Definition truthy_list (A : Type) (o : option (list A)) : bool :=
  match o with
  | Some (_ :: _) => true
  | _ => false
  end.

Definition truthy_int (o : option Z) : bool :=
  match o with
  | Some z => negb (z =? 0)
  | None => false
  end.

(** The number behind an optional integer that has passed its truth test. *)
Definition days (o : option Z) : Z :=
  match o with
  | Some z => z
  | None => 0
  end.

(** How an f-string renders an optional string. *)
Definition format (o : option string) : string :=
  match o with
  | Some s => s
  | None => "None"
  end.

(** The elements of an optional list that has passed its truth test. *)
Definition items (A : Type) (o : option (list A)) : list A :=
  match o with
  | Some l => l
  | None => []
  end.

(** [sep.join(l)] *)
Fixpoint join (sep : string) (l : list string) : string :=
  match l with
  | [] => ""
  | [x] => x
  | x :: rest => (x ++ sep ++ join sep rest)%string
  end.

(** ASCII white space, as [str.strip()] removes it. *)
Definition is_space (c : ascii) : bool :=
  let n := nat_of_ascii c in
  ((9 <=? n) && (n <=? 13) || (28 <=? n) && (n <=? 32))%nat.

Fixpoint lstrip (s : string) : string :=
  match s with
  | String c s' => if is_space c then lstrip s' else s
  | EmptyString => EmptyString
  end.

Fixpoint rstrip (s : string) : string :=
  match s with
  | String c s' =>
      match rstrip s' with
      | EmptyString => if is_space c then EmptyString else String c EmptyString
      | r => String c r
      end
  | EmptyString => EmptyString
  end.

Definition strip (s : string) : string := lstrip (rstrip s).

Fixpoint startswith (p s : string) : bool :=
  match p, s with
  | EmptyString, _ => true
  | String a p', String b s' => Ascii.eqb a b && startswith p' s'
  | String _ _, EmptyString => false
  end.

Fixpoint endswith_slash (s : string) : bool :=
  match s with
  | EmptyString => false
  | String c EmptyString => Ascii.eqb c "/"
  | String _ s' => endswith_slash s'
  end.

(** [os.path.join(a, b)] of posixpath, one component at a time. *)
Definition path_join2 (a b : string) : string :=
  if startswith "/" b then b
  else if (a =? "")%string || endswith_slash a then (a ++ b)%string
  else (a ++ "/" ++ b)%string.

Definition path_join (a : string) (p : list string) : string :=
  fold_left path_join2 p a.

End Py.

(** ** The file system *)

(** A regular file carries its modification time, its bytes, and whether
  unlinking it is permitted ([os.remove] raises when it is not).  A
  directory lists its entries by name. *)
#[warnings="-register-all"]
Inductive node : Type :=
| File (mtime : Z) (content : string) (removable : bool)
| Dir (entries : list (string * node)).

Module FS.

(** The pieces of a path between slashes. *)
Fixpoint split_slash (s : string) : list string :=
  match s with
  | EmptyString => [EmptyString]
  | String c s' =>
      if Ascii.eqb c "/" then EmptyString :: split_slash s'
      else match split_slash s' with
           | h :: t => String c h :: t
           | [] => [String c EmptyString]
           end
  end.

Definition is_name (c : string) : bool :=
  negb (c =? "")%string && negb (c =? ".")%string.

(** Empty pieces (doubled or trailing slashes) and [.] name nothing. *)
Definition components (s : string) : list string :=
  filter is_name (split_slash s).

Fixpoint assoc (name : string) (es : list (string * node)) : option node :=
  match es with
  | [] => None
  | (k, v) :: rest => if (k =? name)%string then Some v else assoc name rest
  end.

Fixpoint lookup (p : list string) (n : node) : option node :=
  match p with
  | [] => Some n
  | c :: p' =>
      match n with
      | Dir es =>
          match assoc c es with
          | Some m => lookup p' m
          | None => None
          end
      | File _ _ _ => None
      end
  end.

(** Replace ([Some]) or delete ([None]) the entry called [name]. *)
Fixpoint set_entry (name : string) (v : option node)
         (es : list (string * node)) : list (string * node) :=
  match es with
  | [] => match v with Some n => [(name, n)] | None => [] end
  | (k, x) :: rest =>
      if (k =? name)%string
      then match v with Some n => (k, n) :: rest | None => rest end
      else (k, x) :: set_entry name v rest
  end.

(** Rewrite what sits at path [p]; [f] sees the present entry, if any, and
    answers the new one.  Where an inner component of [p] is missing or is a
    regular file nothing changes. *)
Fixpoint alter (p : list string) (f : option node -> option node)
         (n : node) : node :=
  match p with
  | [] => match f (Some n) with Some n' => n' | None => n end
  | [c] =>
      match n with
      | Dir es => Dir (set_entry c (f (assoc c es)) es)
      | File _ _ _ => n
      end
  | c :: p' =>
      match n with
      | Dir es =>
          match assoc c es with
          | Some m => Dir (set_entry c (Some (alter p' f m)) es)
          | None => n
          end
      | File _ _ _ => n
      end
  end.

Definition is_dir (n : node) : bool :=
  match n with
  | Dir _ => true
  | File _ _ _ => false
  end.

(** The names [os.scandir] reports as directories, and the others. *)
Definition dirnames (es : list (string * node)) : list string :=
  map fst (filter (fun e => is_dir (snd e)) es).

Definition filenames (es : list (string * node)) : list string :=
  map fst (filter (fun e => negb (is_dir (snd e))) es).

(** The triples [os.walk] yields for the tree [n] found at [dirpath]. *)
Fixpoint walk (dirpath : string) (n : node)
  : list (string * list string * list string) :=
  match n with
  | File _ _ _ => []
  | Dir es =>
      (dirpath, dirnames es, filenames es)
        :: flat_map
             (fun e => walk (Py.path_join dirpath [fst e]) (snd e)) es
  end.

(** What is left of a tree when it is removed entry by entry and the first
    failure stops the removal; nothing is left when all of it could go. *)
Fixpoint rmtree_node (n : node) : option node :=
  match n with
  | File _ _ removable => if removable then None else Some n
  | Dir es =>
      let fix go (es : list (string * node)) : list (string * node) :=
        match es with
        | [] => []
        | (name, child) :: rest =>
            match rmtree_node child with
            | None => go rest
            | Some r => (name, r) :: rest
            end
        end in
      match go es with
      | [] => None
      | left_over => Some (Dir left_over)
      end
  end.

Fixpoint rmtree_entries (es : list (string * node)) : list (string * node) :=
  match es with
  | [] => []
  | (name, child) :: rest =>
      match rmtree_node child with
      | None => rmtree_entries rest
      | Some r => (name, r) :: rest
      end
  end.

(** [mkdir -p]: [None] when a regular file is in the way. *)
Fixpoint mkdirs (p : list string) (n : node) : option node :=
  match n with
  | File _ _ _ => None
  | Dir es =>
      match p with
      | [] => Some n
      | c :: p' =>
          match mkdirs p' (match assoc c es with
                           | Some m => m
                           | None => Dir []
                           end) with
          | Some m' => Some (Dir (set_entry c (Some m') es))
          | None => None
          end
      end
  end.

End FS.

(** ** Child processes *)

Inductive cmdline : Type :=
| Shell (command : string)          (* a string, run with [shell=True] *)
| Argv (argv : list string).        (* an argument vector *)

(** The keyword arguments of [subprocess.run] that the program uses. *)
Record run_args : Type := mkRunArgs {
  args : cmdline;
  check : bool;
  capture : bool;
  run_timeout : Z
}.

(** How a child process ends, as the operating system reports it. *)
Inductive completion : Type :=
| Exited (returncode : Z) (stdout stderr : string)
| TimedOut
| Crashed.      (* the call raises something else: it could not be started, ... *)

(** What [subprocess.run] hands back to Python. *)
Inductive run_result : Type :=
| CompletedProcess (returncode : Z) (stdout stderr : string)
| TimeoutExpired
| CalledProcessError (returncode : Z) (stderr : string)
| OtherException.

(** ** The world *)

Inductive event : Type :=
| EvRun (a : run_args)
| EvSleep (seconds : Z)
| EvWalk (top : string)
| EvRemove (path : string) (ok : bool)
| EvRmtree (path : string) (ok : bool)
| EvMakedirs (path : string) (ok : bool).

Record World : Type := mkWorld {
  INTERRUPTED : bool;       (* the module global set by [signal_handler] *)
  fs : node;                (* the root directory *)
  clock : Z;                (* what [time.time()] reads *)
  trace : list event        (* the effects performed so far, oldest first *)
}.

(** What happened outside while the program was blocked in a call. *)
Record Change : Type := mkChange {
  signalled : bool;         (* SIGINT or SIGTERM was delivered *)
  fs_after : node;
  clock_after : Z
}.

Record Host : Type := mkHost {
  HOME : string;                                     (* what [~] expands to *)
  cwd : list string;                                 (* the working directory *)
  host_run : run_args -> World -> completion * Change;
  host_sleep : Z -> World -> Change;
  host_which : string -> World -> option string;     (* [shutil.which] *)
  host_abspath : string -> string  (* [os.path.abspath(os.path.expanduser(p))] *)
}.

(** [signal_handler] only ever stores [True]: the flag never falls back. *)
Definition absorb (c : Change) (w : World) : World :=
{| INTERRUPTED := INTERRUPTED w || signalled c;
   fs := fs_after c;
   clock := clock_after c;
   trace := trace w |}.

Definition record (e : event) (w : World) : World :=
{| INTERRUPTED := INTERRUPTED w;
   fs := fs w;
   clock := clock w;
   trace := trace w ++ [e] |}.

Definition set_fs (n : node) (w : World) : World :=
{| INTERRUPTED := INTERRUPTED w;
   fs := n;
   clock := clock w;
   trace := trace w |}.

Section Program.

Variable host : Host.

(** *** Library calls *)

(** [subprocess.run]: the child runs to its end while the program is
    blocked; with [check=True] a non-zero exit status is raised as
    [CalledProcessError]. *)
Definition subprocess_run (a : run_args) (w : World) : run_result * World :=
  let (c, ch) := host_run host a w in
  let w' := record (EvRun a) (absorb ch w) in
  match c with
  | Exited rc out err =>
      if check a && negb (rc =? 0)
      then (CalledProcessError rc err, w')
      else (CompletedProcess rc out err, w')
  | TimedOut => (TimeoutExpired, w')
  | Crashed => (OtherException, w')
  end.

Definition time_sleep (seconds : Z) (w : World) : World :=
  record (EvSleep seconds) (absorb (host_sleep host seconds w) w).

(** The components a path string names, from the root. *)
Definition resolve (p : string) : list string :=
  if Py.startswith "/" p then FS.components p
  else cwd host ++ FS.components p.

Definition os_path_exists (p : string) (w : World) : bool :=
  match FS.lookup (resolve p) (fs w) with
  | Some _ => true
  | None => false
  end.

Definition os_path_isfile (p : string) (w : World) : bool :=
  match FS.lookup (resolve p) (fs w) with
  | Some (File _ _ _) => true
  | _ => false
  end.

(** *** run_command *)

(** What [run_command] returns when it does not return [None]: the stripped
    standard output in captured mode, [True] in streamed mode. *)
Inductive outcome : Type :=
| Stdout (s : string)
| PyTrue.

Definition shell_args (command : string) (capture_output : bool)
           (timeout : Z) : run_args :=
  {| args := Shell command; check := true;
     capture := capture_output; run_timeout := timeout |}.

(** [run_command] (lines 61-114): the [while attempt < retries] loop,
    entered with the counter at [attempt].  Falling off the loop returns
    [None], as a Python function without a final [return] does. *)
Equations? run_command_loop (command : string) (capture_output : bool)
          (timeout retries : Z) (check_interruption : bool)
          (attempt : Z) (w : World) : option outcome * World
  by wf (Z.to_nat (retries - attempt)) lt :=
  run_command_loop command capture_output timeout retries
                   check_interruption attempt w
    with Z_lt_dec attempt retries => {
    | right _ := (None, w);
    | left _ with check_interruption && INTERRUPTED w => {
      | true := (None, w);
      | false
          with subprocess_run
                 (shell_args command capture_output timeout) w => {
        | (CompletedProcess _ out _, w1) :=
            (Some (if capture_output then Stdout (Py.strip out) else PyTrue),
             w1);
        | (TimeoutExpired, w1) with Z_lt_dec (attempt + 1) retries => {
          | left _ :=
              run_command_loop command capture_output timeout retries
                               check_interruption (attempt + 1)
                               (time_sleep RETRY_DELAY w1);
          | right _ := (None, w1) };
        | (CalledProcessError _ _, w1)
            with Z_lt_dec (attempt + 1) retries => {
          | left _ :=
              run_command_loop command capture_output timeout retries
                               check_interruption (attempt + 1)
                               (time_sleep RETRY_DELAY w1);
          | right _ := (None, w1) };
        | (OtherException, w1) := (None, w1) } } }.
Proof. all: lia. Qed.

Definition run_command (command : string) (capture_output : bool)
           (timeout retries : Z) (check_interruption : bool)
           (w : World) : option outcome * World :=
  run_command_loop command capture_output timeout retries
                   check_interruption 0 w.

(** *** The tool and the environments *)

Definition is_uv_installed (w : World) : bool :=
  match host_which host "uv" w with
  | Some _ => true
  | None => false
  end.

Definition probe_args (python_bin : string) : run_args :=
  {| args := Argv [python_bin; "--version"]; check := false;
     capture := true; run_timeout := 10 |}.

(** [verify_venv] (lines 309-339). *)
Definition verify_venv (path : string) (w : World) : bool * World :=
  let python_bin := Py.path_join path ["bin"; "python"] in
  let pip_bin := Py.path_join path ["bin"; "pip"] in
  if negb (os_path_exists python_bin w) || negb (os_path_isfile python_bin w)
  then (false, w)
  else if negb (os_path_exists pip_bin w) || negb (os_path_isfile pip_bin w)
  then (false, w)
  else
    match subprocess_run (probe_args python_bin) w with
    | (CompletedProcess returncode _ _, w1) =>
        if negb (returncode =? 0) then (false, w1) else (true, w1)
    | (_, w1) => (false, w1)          (* except Exception *)
    end.

(** The command line [create_venv] builds for the expanded [path]. *)
Definition venv_command (path : string) (python_version : option string)
  : string :=
  let command := ("uv venv " ++ path)%string in
  if Py.truthy_str python_version
  then (command ++ " --python " ++ Py.format python_version)%string
  else command.

(** [create_venv] (lines 253-307).  The test for a directory that is
    already there, before the command is run, only prints a warning. *)
Definition create_venv (path : string) (python_version : option string)
           (timeout retries : Z) (w : World) : bool * World :=
  if negb (is_uv_installed w) then (false, w)
  else
    let path := host_abspath host path in
    let command := venv_command path python_version in
    let (result, w1) := run_command command false timeout retries true w in
    match result with
    | None =>
        if os_path_exists path w1
        then (let (ok, w2) := verify_venv path w1 in
              if ok then (true, w2) else (false, w2))
        else (false, w1)
    | Some _ =>
        let (ok, w2) := verify_venv path w1 in
        if ok then (true, w2) else (false, w2)
    end.

(** *** Installing into an environment *)

(** The command line [install_dependencies] builds, or [None] on the branch
    that gives up with nothing to install. *)
Definition dependencies_command (python_bin : string)
           (requirements_file : option string)
           (package_list : option (list string))
           (dev parallel : bool) : option string :=
  if Py.truthy_str requirements_file then
    let command :=
      (python_bin ++ " -m uv pip install -r "
                  ++ Py.format requirements_file)%string in
    let command := if dev then (command ++ " --dev")%string else command in
    let command :=
      if parallel then (command ++ " --parallel")%string else command in
    Some command
  else if Py.truthy_list package_list then
    let packages := Py.join " " (Py.items package_list) in
    let command := (python_bin ++ " -m uv pip install " ++ packages)%string in
    let command :=
      if parallel then (command ++ " --parallel")%string else command in
    Some command
  else None.

(** [install_dependencies] (lines 341-384). *)
Definition install_dependencies (venv_path : string)
           (requirements_file : option string)
           (package_list : option (list string))
           (dev parallel : bool) (w : World) : bool * World :=
  let (ok, w1) := verify_venv venv_path w in
  if negb ok then (false, w1)
  else
    let python_bin := Py.path_join venv_path ["bin"; "python"] in
    match dependencies_command python_bin requirements_file package_list
                               dev parallel with
    | None => (false, w1)
    | Some command =>
        let (result, w2) :=
          run_command command false 600 MAX_RETRIES true w1 in
        match result with
        | None => (false, w2)
        | Some _ => (true, w2)
        end
    end.

(** [install_editable] (lines 386-411). *)
Definition install_editable (venv_path project_path : string)
           (parallel : bool) (w : World) : bool * World :=
  let (ok, w1) := verify_venv venv_path w in
  if negb ok then (false, w1)
  else
    let python_bin := Py.path_join venv_path ["bin"; "python"] in
    let command :=
      (python_bin ++ " -m uv pip install -e " ++ project_path)%string in
    let command :=
      if parallel then (command ++ " --parallel")%string else command in
    let (result, w2) := run_command command false 600 MAX_RETRIES true w1 in
    match result with
    | None => (false, w2)
    | Some _ => (true, w2)
    end.

(** *** The cache *)

Definition CACHE_DIR : string := (HOME host ++ "/Agentic/cache/uv")%string.
Definition DOWNLOAD_CACHE : string := Py.path_join CACHE_DIR ["downloads"].

(** [os.walk(top)], top down.  The loops of this program only unlink regular
    files of a directory already listed, so the lazy scan of the generator
    meets the same directories as a listing taken when the walk starts. *)
Definition os_walk (top : string) (w : World)
  : list (string * list string * list string) * World :=
  (match FS.lookup (resolve top) (fs w) with
   | Some n => FS.walk top n
   | None => []
   end,
   record (EvWalk top) w).

Definition os_path_getsize (p : string) (w : World) : Z :=
  match FS.lookup (resolve p) (fs w) with
  | Some (File _ content _) => Z.of_nat (String.length content)
  | _ => 0
  end.

Definition os_path_getmtime (p : string) (w : World) : Z :=
  match FS.lookup (resolve p) (fs w) with
  | Some (File mtime _ _) => mtime
  | _ => 0
  end.

(** [os.remove(p)]; [false] stands for the exception it raises. *)
Definition os_remove (p : string) (w : World) : bool * World :=
  match FS.lookup (resolve p) (fs w) with
  | Some (File _ _ true) =>
      (true, record (EvRemove p true)
                    (set_fs (FS.alter (resolve p) (fun _ => None) (fs w)) w))
  | _ => (false, record (EvRemove p false) w)
  end.

(** [shutil.rmtree(p)]: entries go one by one, and the first that cannot be
    unlinked raises, leaving the rest in place. *)
Definition shutil_rmtree (p : string) (w : World) : bool * World :=
  match resolve p, FS.lookup (resolve p) (fs w) with
  | _ :: _, Some (Dir es) =>
      match FS.rmtree_entries es with
      | [] =>
          (true, record (EvRmtree p true)
                        (set_fs (FS.alter (resolve p) (fun _ => None) (fs w)) w))
      | left_over =>
          (false,
           record (EvRmtree p false)
                  (set_fs (FS.alter (resolve p)
                                    (fun _ => Some (Dir left_over)) (fs w)) w))
      end
  | _, _ => (false, record (EvRmtree p false) w)
  end.

(** [os.makedirs(p, exist_ok=True)] *)
Definition os_makedirs (p : string) (w : World) : bool * World :=
  match FS.mkdirs (resolve p) (fs w) with
  | Some n => (true, record (EvMakedirs p true) (set_fs n w))
  | None => (false, record (EvMakedirs p false) w)
  end.

(** [get_directory_size] (lines 437-445). *)
Definition get_directory_size (path : string) (w : World) : Z * World :=
  let (listing, w1) := os_walk path w in
  (fold_left
     (fun total '(dirpath, _, filenames) =>
        fold_left
          (fun total f =>
             let fp := Py.path_join dirpath [f] in
             if os_path_exists fp w1 then total + os_path_getsize fp w1
             else total)
          filenames total)
     listing 0,
   w1).

(** The body of the inner [for f in filenames] loop of [clean_cache]. *)
Definition clean_file (cutoff_time : Z) (dirpath : string)
           (w : World) (f : string) : World :=
  let fp := Py.path_join dirpath [f] in
  if os_path_exists fp w && (os_path_getmtime fp w <? cutoff_time)
  then snd (os_remove fp w)          (* a failure is logged and skipped *)
  else w.

(** The two nested [for] loops of [clean_cache] over what [os.walk]
    yields. *)
Definition clean_listing (cutoff_time : Z)
           (listing : list (string * list string * list string))
           (w : World) : World :=
  fold_left
    (fun w '(dirpath, _, filenames) =>
       fold_left (clean_file cutoff_time dirpath) filenames w)
    listing w.

(** [clean_cache] (lines 458-498).  The sizes measured before and after are
    only printed. *)
Definition clean_cache (older_than_days : option Z) (w : World)
  : bool * World :=
  if negb (os_path_exists CACHE_DIR w) then (true, w)
  else
    let (before_size, w1) := get_directory_size CACHE_DIR w in
    if Py.truthy_int older_than_days then
      let cutoff_time :=
        clock w1 - (Py.days older_than_days * 24 * 60 * 60) in
      let (listing, w2) := os_walk CACHE_DIR w1 in
      let w3 := clean_listing cutoff_time listing w2 in
      let (after_size, w4) := get_directory_size CACHE_DIR w3 in
      (true, w4)
    else
      let (ok, w2) := shutil_rmtree CACHE_DIR w1 in
      if negb ok then (false, w2)
      else
        let (ok, w3) := os_makedirs CACHE_DIR w2 in
        if negb ok then (false, w3)
        else
          let (ok, w4) := os_makedirs DOWNLOAD_CACHE w3 in
          if negb ok then (false, w4)
          else
            let (after_size, w5) := get_directory_size CACHE_DIR w4 in
            (true, w5).

(** *** The tool itself *)

(** [get_uv_version] (lines 120-126). *)
Definition get_uv_version (w : World) : option outcome * World :=
  if negb (is_uv_installed w) then (None, w)
  else run_command "uv --version" true DEFAULT_TIMEOUT MAX_RETRIES true w.

(** The vendor script, which installs and updates alike. *)
Definition INSTALLER : string :=
  "curl -sSf https://astral.sh/uv/install.sh | sh".

(** [install_uv] (lines 128-170).  The version it asks for is only printed;
    so is what the search of [~/.cargo/bin] and [~/.local/bin] finds when
    the tool is still not on the search path. *)
Definition install_uv (w : World) : bool * World :=
  if is_uv_installed w then
    let (_, w1) := get_uv_version w in (true, w1)
  else
    let (result, w1) :=
      run_command INSTALLER false DEFAULT_TIMEOUT MAX_RETRIES true w in
    match result with
    | None => (false, w1)
    | Some _ =>
        if negb (is_uv_installed w1) then (false, w1)
        else let (version, w2) := get_uv_version w1 in (true, w2)
    end.

(** [update_uv] (lines 172-200).  The two versions are compared only to
    choose what to print. *)
Definition update_uv (w : World) : bool * World :=
  if negb (is_uv_installed w) then install_uv w
  else
    let (current_version, w1) := get_uv_version w in
    let (result, w2) :=
      run_command INSTALLER false DEFAULT_TIMEOUT MAX_RETRIES true w1 in
    match result with
    | None => (false, w2)
    | Some _ =>
        let (new_version, w3) := get_uv_version w2 in (true, w3)
    end.

(** [list_python_versions] (lines 202-212). *)
Definition list_python_versions (w : World) : bool * World :=
  if negb (is_uv_installed w) then (false, w)
  else
    let (_, w1) :=
      run_command "uv python list" false DEFAULT_TIMEOUT MAX_RETRIES true w in
    (true, w1).

(** [install_python] (lines 214-251). *)
Definition install_python (version : option string) (w : World)
  : bool * World :=
  if negb (is_uv_installed w) then (false, w)
  else
    let command :=
      if Py.truthy_str version
      then ("uv python install " ++ Py.format version)%string
      else "uv python install" in
    let (result, w1) :=
      run_command command false DEFAULT_TIMEOUT MAX_RETRIES true w in
    match result with
    | None => (false, w1)
    | Some _ =>
        let verify_cmd :=
          if Py.truthy_str version
          then ("uv python list | grep -q " ++ Py.format version)%string
          else "uv python list | head -1" in
        let (verify_result, w2) :=
          run_command verify_cmd true DEFAULT_TIMEOUT MAX_RETRIES true w1 in
        (true, w2)
    end.

(** [show_uv_info] (lines 413-435).  The cache size it measures is only
    printed. *)
Definition show_uv_info (w : World) : bool * World :=
  if negb (is_uv_installed w) then (false, w)
  else
    let (version, w1) := get_uv_version w in
    let (_, w2) :=
      run_command "uv python list" false DEFAULT_TIMEOUT MAX_RETRIES true w1 in
    let (cache_size, w3) := get_directory_size CACHE_DIR w2 in
    (true, w3).

End Program.

(** ** What a cleaning is meant to leave *)

Module Tree.

(** A name a directory entry can bear: not empty, not [.], no slash. *)
Definition no_slash (c : string) : bool :=
  forallb (fun a => negb (Ascii.eqb a "/")) (list_ascii_of_string c).

Definition simple (c : string) : bool := FS.is_name c && no_slash c.

Definition fresh (k : string) (es : list (string * node)) : bool :=
  match FS.assoc k es with
  | None => true
  | Some _ => false
  end.

(** Every directory of the tree lists simple names, each once. *)
Fixpoint well_formed (n : node) : bool :=
  match n with
  | File _ _ _ => true
  | Dir es =>
      (fix all (es : list (string * node)) : bool :=
         match es with
         | [] => true
         | (k, v) :: rest =>
             simple k && fresh k rest && well_formed v && all rest
         end) es
  end.

Fixpoint well_formed_entries (es : list (string * node)) : bool :=
  match es with
  | [] => true
  | (k, v) :: rest =>
      simple k && fresh k rest && well_formed v && well_formed_entries rest
  end.

(** A regular file whose modification time precedes the cutoff and which
    may be unlinked. *)
Definition stale (cutoff : Z) (n : node) : bool :=
  match n with
  | File mtime _ true => mtime <? cutoff
  | _ => false
  end.

(** The tree with its stale files taken out: directories all stay, and so
    does every file that is recent or cannot be unlinked, as it was. *)
Fixpoint prune (cutoff : Z) (n : node) : node :=
  match n with
  | File _ _ _ => n
  | Dir es =>
      Dir ((fix go (es : list (string * node)) : list (string * node) :=
              match es with
              | [] => []
              | (k, v) :: rest =>
                  if stale cutoff v then go rest
                  else (k, prune cutoff v) :: go rest
              end) es)
  end.

Fixpoint prune_entries (cutoff : Z) (es : list (string * node))
  : list (string * node) :=
  match es with
  | [] => []
  | (k, v) :: rest =>
      if stale cutoff v then prune_entries cutoff rest
      else (k, prune cutoff v) :: prune_entries cutoff rest
  end.

(** Only the stale files of this one directory taken out. *)
Fixpoint prune_files (cutoff : Z) (es : list (string * node))
  : list (string * node) :=
  match es with
  | [] => []
  | (k, v) :: rest =>
      if stale cutoff v then prune_files cutoff rest
      else (k, v) :: prune_files cutoff rest
  end.

(** Every file of the tree may be unlinked. *)
Fixpoint removable_tree (n : node) : bool :=
  match n with
  | File _ _ removable => removable
  | Dir es =>
      (fix all (es : list (string * node)) : bool :=
         match es with
         | [] => true
         | (_, v) :: rest => removable_tree v && all rest
         end) es
  end.

End Tree.

(** Unlinking what sits at [p] if it is stale: what one turn of the inner
    loop of [clean_cache] does to the file system. *)
Definition unlink_stale (cutoff : Z) (p : list string) (n : node) : node :=
  match FS.lookup p n with
  | Some v => if Tree.stale cutoff v then FS.alter p (fun _ => None) n else n
  | None => n
  end.

(** The names still to come do not occur among the entries already
    settled. *)
Definition apart (pre suf : list (string * node)) : Prop :=
  Forall (fun e => Tree.fresh (fst e) pre = true) suf.

(** What the walk over the tree [D] found at [dirpath] leaves behind. *)
Definition swept (host : Host) (cutoff : Z) (D : node) : Prop :=
  Tree.well_formed D = true ->
  forall (dirpath : string) (w : World),
    FS.lookup (resolve host dirpath) (fs w) = Some D ->
    fs (clean_listing host cutoff (FS.walk dirpath D) w) =
    FS.alter (resolve host dirpath)
             (fun _ => Some (Tree.prune cutoff D)) (fs w).

(** The bytes held by the regular files of a tree. *)
Fixpoint tree_size (n : node) : Z :=
  match n with
  | File _ content _ => Z.of_nat (String.length content)
  | Dir es =>
      (fix sum (es : list (string * node)) : Z :=
         match es with
         | [] => 0
         | (_, v) :: rest => tree_size v + sum rest
         end) es
  end.

Fixpoint entries_size (es : list (string * node)) : Z :=
  match es with
  | [] => 0
  | (_, v) :: rest => tree_size v + entries_size rest
  end.

(** ** Reading a trace *)

Definition is_run (e : event) : bool :=
  match e with
  | EvRun _ => true
  | _ => false
  end.

Definition is_sleep (e : event) : bool :=
  match e with
  | EvSleep _ => true
  | _ => false
  end.

(** How many child processes, and how many sleeps, a run of events holds. *)
Definition runs_in (t : list event) : nat := List.length (filter is_run t).
Definition sleeps_in (t : list event) : nat := List.length (filter is_sleep t).

(** [n] attempts at [a], each but the last followed by the retry delay. *)
Fixpoint failed_attempts (a : run_args) (n : nat) : list event :=
  match n with
  | O => []
  | S O => [EvRun a]
  | S n' => EvRun a :: EvSleep RETRY_DELAY :: failed_attempts a n'
  end.

(** A failure the loop retries: a non-zero exit or an expired timeout. *)
Definition transient (c : completion) : bool :=
  match c with
  | Exited returncode _ _ => negb (returncode =? 0)
  | TimedOut => true
  | Crashed => false
  end.


(** No signal reaches the program, whatever it is blocked in. *)
Definition never_signalled (host : Host) : Prop :=
  (forall a w, signalled (snd (host_run host a w)) = false) /\
  (forall s w, signalled (host_sleep host s w) = false).

(** ** Sample hosts and worlds *)

Module Sample.

Definition unchanged (w : World) : Change :=
  {| signalled := false; fs_after := fs w; clock_after := clock w |}.

(** A machine on which every child process ends as [c] and nothing else
    ever happens. *)
Definition steady (c : completion) : Host :=
  {| HOME := "/home/dev";
     cwd := ["home"; "dev"];
     host_run := fun _ w => (c, unchanged w);
     host_sleep := fun _ w => unchanged w;
     host_which := fun _ _ => Some "/usr/bin/uv";
     host_abspath := fun p => p |}.

(** The same machine without the tool on its search path. *)
Definition bare : Host :=
  {| HOME := "/home/dev";
     cwd := ["home"; "dev"];
     host_run := fun _ w => (Exited 127 "" "not found", unchanged w);
     host_sleep := fun _ w => unchanged w;
     host_which := fun _ _ => None;
     host_abspath := fun p => p |}.

(** A machine whose user interrupts the first child process: it dies of the
    signal, and the signal reaches the program as well. *)
Definition interrupting : Host :=
  {| HOME := "/home/dev";
     cwd := ["home"; "dev"];
     host_run := fun _ w =>
       (Exited 130 "" "",
        {| signalled := true; fs_after := fs w; clock_after := clock w |});
     host_sleep := fun _ w => unchanged w;
     host_which := fun _ _ => Some "/usr/bin/uv";
     host_abspath := fun p => p |}.

Definition failing : Host := steady (Exited 1 "" "error").
Definition hanging : Host := steady TimedOut.
Definition broken : Host := steady Crashed.
Definition working : Host := steady (Exited 0 "Python 3.11.4" "").

Definition exe : node := File 1000 "#!" true.

(** A complete environment at [/venv]. *)
Definition venv : node :=
  Dir [("bin", Dir [("python", exe); ("pip", exe)])].

Definition root : node := Dir [("venv", venv)].

(** A cache under [/home/dev/Agentic/cache/uv] at time 100000: one stale
    download, and a directory of wheels holding a stale and a fresh file. *)
Definition cache_root : list string :=
  ["home"; "dev"; "Agentic"; "cache"; "uv"].

Definition cache : node :=
  Dir [("downloads", Dir [("a.whl", File 10 "abc" true)]);
       ("wheels", Dir [("stale.whl", File 5 "x" true);
                       ("fresh.whl", File 200000 "yy" true)])].

Definition home : node :=
  Dir [("home", Dir [("dev", Dir [("Agentic", Dir [("cache",
    Dir [("uv", cache)])])])])].

(** The same cache with one wheel that cannot be unlinked. *)
Definition locked_cache : node :=
  Dir [("downloads", Dir [("a.whl", File 10 "abc" true)]);
       ("wheels", Dir [("locked.whl", File 5 "x" false)])].

Definition locked_home : node :=
  Dir [("home", Dir [("dev", Dir [("Agentic", Dir [("cache",
    Dir [("uv", locked_cache)]); ("notes.txt", File 7 "keep" true)])])])].

Definition start (n : node) : World :=
  {| INTERRUPTED := false; fs := n; clock := 100000; trace := [] |}.

Definition interrupted (n : node) : World :=
  {| INTERRUPTED := true; fs := n; clock := 100000; trace := [] |}.

End Sample.

(** * Properties *)

Unset Implicit Arguments.

(** ** The retry loop *)

Section RetryLoop.

Variable host : Host.
Variables (command : string) (capture_output : bool) (timeout retries : Z).
Variable check_interruption : bool.

Let loop := run_command_loop host command capture_output timeout retries
                             check_interruption.
Let call := shell_args command capture_output timeout.

(** One turn of the [while] loop, as the source writes it. *)
Lemma run_command_loop_step (attempt : Z) (w : World) :
  loop attempt w =
  if attempt <? retries then
    if check_interruption && INTERRUPTED w then (None, w)
    else
      match subprocess_run host call w with
      | (CompletedProcess _ out _, w1) =>
          (Some (if capture_output then Stdout (Py.strip out) else PyTrue), w1)
      | (TimeoutExpired, w1) | (CalledProcessError _ _, w1) =>
          if attempt + 1 <? retries
          then loop (attempt + 1) (time_sleep host RETRY_DELAY w1)
          else (None, w1)
      | (OtherException, w1) => (None, w1)
      end
  else (None, w).
Proof.
  unfold loop, call.
  simp run_command_loop.
  destruct (Z_lt_dec attempt retries) as [Hlt | Hge]; simpl.
  - rewrite (proj2 (Z.ltb_lt _ _) Hlt).
    destruct (check_interruption && INTERRUPTED w); simpl; [reflexivity |].
    destruct (subprocess_run host (shell_args command capture_output timeout) w)
      as [[rc out err | | rc err | ] w1]; simpl; try reflexivity.
    all: destruct (Z_lt_dec (attempt + 1) retries) as [H1 | H1]; simpl.
    all: try (rewrite (proj2 (Z.ltb_lt _ _) H1); reflexivity).
    all: rewrite (proj2 (Z.ltb_ge _ _)) by lia; reflexivity.
  - rewrite (proj2 (Z.ltb_ge _ _)) by lia. reflexivity.
Qed.

End RetryLoop.

Section RetryBounds.

Variable host : Host.
Variables (command : string) (capture_output : bool) (timeout retries : Z).
Variable check_interruption : bool.

Let loop := run_command_loop host command capture_output timeout retries
                             check_interruption.
Let call := shell_args command capture_output timeout.

Lemma subprocess_run_trace (a : run_args) (w : World) :
  trace (snd (subprocess_run host a w)) = trace w ++ [EvRun a].
Proof.
  unfold subprocess_run.
  destruct (host_run host a w) as [[rc out err | | ] ch]; simpl;
    try reflexivity.
  destruct (check a && negb (rc =? 0)); reflexivity.
Qed.

Lemma subprocess_run_flag (a : run_args) (w : World) :
  INTERRUPTED (snd (subprocess_run host a w)) =
  INTERRUPTED w || signalled (snd (host_run host a w)).
Proof.
  unfold subprocess_run.
  destruct (host_run host a w) as [[rc out err | | ] ch]; simpl;
    try reflexivity.
  destruct (check a && negb (rc =? 0)); reflexivity.
Qed.

(** A transient failure of a checked call surfaces as one of the two
    exceptions the loop retries. *)
Lemma subprocess_run_transient (w : World) :
  transient (fst (host_run host call w)) = true ->
  fst (subprocess_run host call w) = TimeoutExpired \/
  exists rc err, fst (subprocess_run host call w) = CalledProcessError rc err.
Proof.
  unfold subprocess_run.
  destruct (host_run host call w) as [[rc out err | | ] ch]; simpl;
    intros Ht; try discriminate.
  - rewrite Ht. right. exists rc, err. reflexivity.
  - left. reflexivity.
Qed.

Lemma failed_attempts_S (a : run_args) (n : nat) :
  failed_attempts a (S (S n)) =
  EvRun a :: EvSleep RETRY_DELAY :: failed_attempts a (S n).
Proof. reflexivity. Qed.

Lemma runs_in_failed_attempts (a : run_args) (n : nat) :
  runs_in (failed_attempts a n) = n.
Proof.
  unfold runs_in.
  induction n as [| [| n] IH]; try reflexivity.
  rewrite failed_attempts_S.
  change (S (List.length (filter is_run (failed_attempts a (S n)))) = S (S n)).
  f_equal. exact IH.
Qed.

Lemma sleeps_in_failed_attempts (a : run_args) (n : nat) :
  sleeps_in (failed_attempts a n) = Nat.pred n.
Proof.
  unfold sleeps_in.
  induction n as [| [| n] IH]; try reflexivity.
  rewrite failed_attempts_S.
  change (S (List.length (filter is_sleep (failed_attempts a (S n)))) = S n).
  f_equal. exact IH.
Qed.

(** With [k + 1] turns left, a command that keeps failing uses them all. *)
Lemma loop_always_failing (k : nat) :
  never_signalled host ->
  (forall w, transient (fst (host_run host call w)) = true) ->
  forall attempt w,
    retries - attempt = Z.of_nat (S k) ->
    INTERRUPTED w = false ->
    fst (loop attempt w) = None /\
    trace (snd (loop attempt w)) = trace w ++ failed_attempts call (S k).
Proof.
  intros [Hrun Hsleep] Hfail.
  induction k as [| k IH]; intros attempt w Hleft Hflag.
  all: unfold loop; rewrite run_command_loop_step; fold loop; fold call.
  all: rewrite (proj2 (Z.ltb_lt attempt retries)) by lia.
  all: rewrite Hflag, andb_false_r.
  all: pose proof (subprocess_run_trace call w) as Htr.
  all: pose proof (subprocess_run_flag call w) as Hfl.
  all: rewrite Hflag, Hrun in Hfl; simpl in Hfl.
  all: destruct (subprocess_run_transient w (Hfail w)) as [Hr | (rc & err & Hr)].
  all: destruct (subprocess_run host call w) as [r w1]; simpl in Hr, Htr, Hfl.
  all: subst r.
  1, 2: rewrite (proj2 (Z.ltb_ge (attempt + 1) retries)) by lia.
  1, 2: simpl; split; [reflexivity | exact Htr].
  all: rewrite (proj2 (Z.ltb_lt (attempt + 1) retries)) by lia.
  all: destruct (IH (attempt + 1) (time_sleep host RETRY_DELAY w1)) as [Hn Ht];
    [lia | simpl; rewrite Hfl, Hsleep; reflexivity | ].
  all: split; [exact Hn | ].
  all: rewrite Ht, failed_attempts_S; simpl trace.
  all: rewrite Htr, <- !app_assoc; reflexivity.
Qed.

(** C1: for every retry bound N >= 1, a command that fails on every attempt
    (non-zero exit or timeout) while no cancellation is ever raised makes
    [run_command] return [None] after exactly N attempts with the fixed delay
    slept between consecutive attempts: N child processes, N - 1 sleeps, and
    in particular never more than N attempts. *)
Theorem run_command_exhausts_retries (w : World) :
  1 <= retries ->
  INTERRUPTED w = false ->
  never_signalled host ->
  (forall w', transient (fst (host_run host call w')) = true) ->
  let r := run_command host command capture_output timeout retries
                       check_interruption w in
  let n := Z.to_nat retries in
  fst r = None /\
  trace (snd r) = trace w ++ failed_attempts call n /\
  runs_in (failed_attempts call n) = n /\
  sleeps_in (failed_attempts call n) = (n - 1)%nat.
Proof.
  intros Hn Hflag Hquiet Hfail r n. subst r.
  unfold run_command. fold loop.
  destruct (Z.to_nat retries) as [| k] eqn:Hk; [lia |].
  destruct (@loop_always_failing k Hquiet Hfail 0 w) as [Hr Ht];
    [lia | exact Hflag |].
  subst n.
  rewrite runs_in_failed_attempts, sleeps_in_failed_attempts.
  repeat split; try assumption; simpl; lia.
Qed.

(** C4: when cancellation checking is on and the flag is already set at the
    head of a turn of the loop, whatever the attempt counter, the loop
    returns [None] at once and leaves the world as it found it: no child
    process is started, nothing is slept.  At the first turn this is
    [run_command] itself performing zero attempts. *)
Theorem run_command_cancelled (attempt : Z) (w : World) :
  check_interruption = true ->
  INTERRUPTED w = true ->
  loop attempt w = (None, w) /\
  run_command host command capture_output timeout retries
              check_interruption w = (None, w) /\
  runs_in (trace (snd (loop attempt w))) = runs_in (trace w).
Proof.
  intros Hchk Hflag.
  assert (Hloop : forall a, loop a w = (None, w)).
  { intros a. unfold loop. rewrite run_command_loop_step.
    rewrite Hchk, Hflag. simpl. destruct (a <? retries); reflexivity. }
  repeat split.
  - apply Hloop.
  - apply (Hloop 0).
  - rewrite Hloop. reflexivity.
Qed.

(** C8: when the child process of an attempt raises anything other than a
    timeout or a non-zero exit, the loop stops there: it returns [None], the
    only effect of the turn is that one child process, no retry delay is
    slept and none of the remaining attempts is made. *)
Theorem run_command_unexpected_error (attempt : Z) (w : World) :
  attempt < retries ->
  check_interruption && INTERRUPTED w = false ->
  fst (host_run host call w) = Crashed ->
  loop attempt w = (None, snd (subprocess_run host call w)) /\
  trace (snd (loop attempt w)) = trace w ++ [EvRun call] /\
  sleeps_in (trace (snd (loop attempt w))) = sleeps_in (trace w).
Proof.
  intros Hlt Hgo Hcrash.
  assert (Hloop : loop attempt w = (None, snd (subprocess_run host call w))).
  { unfold loop. rewrite run_command_loop_step. fold call.
    rewrite (proj2 (Z.ltb_lt _ _) Hlt), Hgo.
    unfold subprocess_run in *.
    destruct (host_run host call w) as [c ch]. simpl in Hcrash. subst c.
    reflexivity. }
  rewrite Hloop. simpl.
  rewrite subprocess_run_trace.
  repeat split.
  unfold sleeps_in. rewrite filter_app. simpl. rewrite app_nil_r. reflexivity.
Qed.

(** C9: with a retry bound N <= 0 the [while] test fails at once:
    [run_command] falls off the loop, returns [None] and leaves the world
    untouched, so no child process is started and no delay is slept. *)
Theorem run_command_no_retries (w : World) :
  retries <= 0 ->
  run_command host command capture_output timeout retries
              check_interruption w = (None, w).
Proof.
  intros Hle. unfold run_command. fold loop.
  unfold loop. rewrite run_command_loop_step.
  rewrite (proj2 (Z.ltb_ge 0 retries)) by lia. reflexivity.
Qed.

End RetryBounds.

(** The bound is a ceiling for every command and every host: whatever the
    child processes do, a call of [run_command] starts at most [retries] of
    them. *)
Lemma run_command_loop_ceiling (host : Host) (command : string)
      (capture_output : bool) (timeout retries : Z)
      (check_interruption : bool) (k : nat) :
  forall attempt w,
    retries - attempt <= Z.of_nat k ->
    exists evs,
      trace (snd (run_command_loop host command capture_output timeout
                                   retries check_interruption attempt w))
      = trace w ++ evs /\
      (runs_in evs <= k)%nat.
Proof.
  induction k as [| k IH]; intros attempt w Hleft.
  all: rewrite run_command_loop_step.
  - rewrite (proj2 (Z.ltb_ge attempt retries)) by lia.
    exists []. rewrite app_nil_r. split; [reflexivity | apply Nat.le_refl].
  - destruct (attempt <? retries) eqn:Hlt;
      [| exists []; rewrite app_nil_r; split; [reflexivity | apply Nat.le_0_l]].
    destruct (check_interruption && INTERRUPTED w);
      [exists []; rewrite app_nil_r; split; [reflexivity | apply Nat.le_0_l] |].
    set (call := shell_args command capture_output timeout).
    pose proof (subprocess_run_trace host call w) as Htr.
    destruct (subprocess_run host call w) as [r w1]. simpl in Htr.
    assert (Hone : (runs_in [EvRun call] <= S k)%nat)
      by (unfold runs_in; simpl; apply le_n_S, Nat.le_0_l).
    destruct r as [rc out err | | rc err | ].
    1, 4: exists [EvRun call]; split; [exact Htr | exact Hone].
    all: destruct (attempt + 1 <? retries);
      [| exists [EvRun call]; split; [exact Htr | exact Hone]].
    all: destruct (IH (attempt + 1) (time_sleep host RETRY_DELAY w1))
      as (evs & He & Hn); [lia |].
    all: exists (EvRun call :: EvSleep RETRY_DELAY :: evs).
    all: rewrite He; simpl trace; rewrite Htr, <- !app_assoc.
    all: split; [reflexivity | unfold runs_in in *; simpl; lia].
Qed.

Section Signals.

Variable host : Host.

(** X2: a signal that arrives while an attempt or the delay after it is
    under way stops the loop at its next turn: that failed attempt is the
    last. *)
Lemma run_command_stops_after_signal (command : string)
      (capture_output : bool) (timeout retries attempt : Z) (w : World) :
  attempt + 1 < retries ->
  INTERRUPTED w = false ->
  transient (fst (host_run host (shell_args command capture_output timeout) w))
  = true ->
  let w1 := snd (subprocess_run host
                   (shell_args command capture_output timeout) w) in
  let w2 := time_sleep host RETRY_DELAY w1 in
  INTERRUPTED w2 = true ->
  run_command_loop host command capture_output timeout retries true attempt w
  = (None, w2).
Proof.
  intros Hlt Hflag Hfail w1 w2 Hsig.
  rewrite run_command_loop_step.
  rewrite (proj2 (Z.ltb_lt attempt retries)) by lia.
  rewrite Hflag. cbn [andb].
  subst w2 w1.
  destruct (subprocess_run_transient host command capture_output timeout w Hfail)
    as [Hr | (rc & err & Hr)].
  all: destruct (subprocess_run host _ w) as [r w1]; simpl in Hr; subst r.
  all: rewrite (proj2 (Z.ltb_lt (attempt + 1) retries)) by lia.
  all: cbn [snd] in Hsig.
  all: rewrite run_command_loop_step, Hsig; cbn [andb].
  all: destruct (attempt + 1 <? retries); reflexivity.
Qed.

End Signals.

Lemma run_command_exhausts_retries_witness :
  let call := shell_args "uv venv /venv" false 300 in
  let r := run_command Sample.failing "uv venv /venv" false 300 3 true
                       (Sample.start Sample.root) in
  fst r = None /\
  trace (snd r) = [EvRun call; EvSleep 5; EvRun call; EvSleep 5; EvRun call].
Proof.
  destruct (@run_command_exhausts_retries
              Sample.failing "uv venv /venv" false 300 3 true
              (Sample.start Sample.root)) as (Hr & Ht & _).
  - lia.
  - reflexivity.
  - split; reflexivity.
  - reflexivity.
  - split; [exact Hr | exact Ht].
Defined.

Lemma run_command_cancelled_witness :
  run_command Sample.working "uv --version" true 300 3 true
              (Sample.interrupted Sample.root)
  = (None, Sample.interrupted Sample.root).
Proof.
  destruct (@run_command_cancelled
              Sample.working "uv --version" true 300 3 true 0
              (Sample.interrupted Sample.root)) as (_ & H & _).
  - reflexivity.
  - reflexivity.
  - exact H.
Defined.

Lemma run_command_unexpected_error_witness :
  let call := shell_args "uv venv /venv" false 300 in
  trace (snd (run_command_loop Sample.broken "uv venv /venv" false 300 3 true 0
                               (Sample.start Sample.root)))
  = [EvRun call].
Proof.
  destruct (@run_command_unexpected_error
              Sample.broken "uv venv /venv" false 300 3 true 0
              (Sample.start Sample.root)) as (_ & H & _).
  - lia.
  - reflexivity.
  - reflexivity.
  - exact H.
Defined.

Lemma run_command_no_retries_witness :
  run_command Sample.working "uv venv /venv" false 300 0 true
              (Sample.start Sample.root)
  = (None, Sample.start Sample.root).
Proof.
  apply (@run_command_no_retries
           Sample.working "uv venv /venv" false 300 0 true
           (Sample.start Sample.root)).
  lia.
Defined.

(** ** Environments *)

Section Environments.

Variable host : Host.

(** C2: [verify_venv path] answers true exactly when [bin/python] and
    [bin/pip] under [path] both exist and are regular files and running
    [bin/python --version] with the ten second timeout exits with status
    zero; it answers false as soon as an entry is missing or is not a regular
    file, or the probe exits non-zero, times out or raises. *)
Theorem verify_venv_iff (path : string) (w : World) :
  let python_bin := Py.path_join path ["bin"; "python"] in
  let pip_bin := Py.path_join path ["bin"; "pip"] in
  let probe := {| args := Argv [python_bin; "--version"]; check := false;
                  capture := true; run_timeout := 10 |} in
  (fst (verify_venv host path w) = true <->
   os_path_exists host python_bin w = true /\
   os_path_isfile host python_bin w = true /\
   os_path_exists host pip_bin w = true /\
   os_path_isfile host pip_bin w = true /\
   exists out err, fst (host_run host probe w) = Exited 0 out err) /\
  (fst (verify_venv host path w) = false <->
   os_path_exists host python_bin w = false \/
   os_path_isfile host python_bin w = false \/
   os_path_exists host pip_bin w = false \/
   os_path_isfile host pip_bin w = false \/
   (exists rc out err,
       fst (host_run host probe w) = Exited rc out err /\ rc <> 0) \/
   fst (host_run host probe w) = TimedOut \/
   fst (host_run host probe w) = Crashed).
Proof.
  intros python_bin pip_bin probe.
  unfold verify_venv. fold python_bin pip_bin.
  change (probe_args python_bin) with probe.
  destruct (os_path_exists host python_bin w),
           (os_path_isfile host python_bin w),
           (os_path_exists host pip_bin w),
           (os_path_isfile host pip_bin w); simpl.
  2-16: split; split; intros H; try discriminate; try tauto;
    decompose [and] H; discriminate.
  unfold subprocess_run.
  destruct (host_run host probe w) as [[rc out err | | ] ch]; simpl.
  - destruct (rc =? 0) eqn:Hrc; simpl.
    + apply Z.eqb_eq in Hrc. subst rc. split; split; intros H.
      * repeat split. exists out, err. reflexivity.
      * reflexivity.
      * discriminate.
      * decompose [or] H; try discriminate.
        destruct H0 as (rc & o & e & Heq & Hne). congruence.
    + apply Z.eqb_neq in Hrc. split; split; intros H.
      * discriminate.
      * destruct H as (_ & _ & _ & _ & o & e & Heq). congruence.
      * do 4 right. left. exists rc, out, err. split; [reflexivity | exact Hrc].
      * reflexivity.
  - split; split; intros H; try discriminate; try reflexivity.
    + destruct H as (_ & _ & _ & _ & o & e & Heq). discriminate.
    + do 5 right. left. reflexivity.
  - split; split; intros H; try discriminate; try reflexivity.
    + destruct H as (_ & _ & _ & _ & o & e & Heq). discriminate.
    + do 6 right. reflexivity.
Qed.

(** Verification starts at most one child process, its own probe. *)
Lemma verify_venv_trace (path : string) (w : World) :
  trace (snd (verify_venv host path w)) = trace w \/
  trace (snd (verify_venv host path w)) =
  trace w ++ [EvRun (probe_args (Py.path_join path ["bin"; "python"]))].
Proof.
  unfold verify_venv.
  destruct (negb _ || negb _); [left; reflexivity |].
  destruct (negb _ || negb _); [left; reflexivity |].
  right.
  pose proof (subprocess_run_trace host
                (probe_args (Py.path_join path ["bin"; "python"])) w) as Htr.
  destruct (subprocess_run host _ w) as [[rc out err | | rc err | ] w1];
    simpl in *; try exact Htr.
  destruct (negb (rc =? 0)); exact Htr.
Qed.

(** A verification that succeeds has run the probe. *)
Lemma verify_venv_true_trace (path : string) (w : World) :
  fst (verify_venv host path w) = true ->
  trace (snd (verify_venv host path w)) =
  trace w ++ [EvRun (probe_args (Py.path_join path ["bin"; "python"]))].
Proof.
  unfold verify_venv.
  destruct (negb _ || negb _); [discriminate |].
  destruct (negb _ || negb _); [discriminate |].
  intros _.
  pose proof (subprocess_run_trace host
                (probe_args (Py.path_join path ["bin"; "python"])) w) as Htr.
  destruct (subprocess_run host _ w) as [[rc out err | | rc err | ] w1];
    simpl in *; try exact Htr.
  destruct (negb (rc =? 0)); exact Htr.
Qed.

(** C6: once the tool is found, [create_venv] runs the creation command on
    the expanded path.  If that command fails and the path exists afterwards,
    the answer is the verdict of [verify_venv] on what is there; if it fails
    and nothing is there, the answer is failure; if it succeeds, the answer
    is again the verdict of [verify_venv], so an environment that was created
    but does not verify is reported as a failure. *)
Theorem create_venv_verdict (path : string) (python_version : option string)
        (timeout retries : Z) (w : World) :
  is_uv_installed host w = true ->
  let target := host_abspath host path in
  let r := run_command host (venv_command target python_version) false
                       timeout retries true w in
  let created := create_venv host path python_version timeout retries w in
  (fst r = None -> os_path_exists host target (snd r) = true ->
   created = verify_venv host target (snd r)) /\
  (fst r = None -> os_path_exists host target (snd r) = false ->
   created = (false, snd r)) /\
  (fst r <> None ->
   created = verify_venv host target (snd r) /\
   (fst created = true <-> fst (verify_venv host target (snd r)) = true)).
Proof.
  intros Huv target r created.
  subst created. unfold create_venv. rewrite Huv. simpl negb. cbv iota.
  fold target. fold r.
  destruct r as [[o |] w1]; simpl fst; simpl snd; cbv iota beta.
  - split; [intros Hn; discriminate Hn |].
    split; [intros Hn; discriminate Hn |].
    intros _.
    destruct (verify_venv host target w1) as [[|] w2]; simpl; tauto.
  - split; [| split].
    + intros _ He. rewrite He.
      destruct (verify_venv host target w1) as [[|] w2]; reflexivity.
    + intros _ He. rewrite He. reflexivity.
    + intros Hn. contradiction Hn. reflexivity.
Qed.

(** C7: with a requirements file supplied, the command line is
    [<python> -m uv pip install -r <file>] followed by the two optional
    flags, whatever the package list is: the list contributes nothing to the
    command, and [install_dependencies] behaves the same for any two
    package lists. *)
Theorem requirements_file_takes_precedence
        (venv_path requirements_file : string)
        (package_list other_list : option (list string))
        (dev parallel : bool) (w : World) :
  requirements_file <> ""%string ->
  let python_bin := Py.path_join venv_path ["bin"; "python"] in
  dependencies_command python_bin (Some requirements_file) package_list
                       dev parallel
  = Some (python_bin ++ " -m uv pip install -r " ++ requirements_file
            ++ (if dev then " --dev" else "")
            ++ (if parallel then " --parallel" else ""))%string /\
  dependencies_command python_bin (Some requirements_file) package_list
                       dev parallel
  = dependencies_command python_bin (Some requirements_file) None
                         dev parallel /\
  install_dependencies host venv_path (Some requirements_file) package_list
                       dev parallel w
  = install_dependencies host venv_path (Some requirements_file) other_list
                         dev parallel w.
Proof.
  intros Hne python_bin.
  assert (Ht : Py.truthy_str (Some requirements_file) = true).
  { simpl. apply negb_true_iff, String.eqb_neq. exact Hne. }
  assert (Hcmd : forall l,
             dependencies_command python_bin (Some requirements_file) l
                                  dev parallel
             = Some (python_bin ++ " -m uv pip install -r "
                       ++ requirements_file
                       ++ (if dev then " --dev" else "")
                       ++ (if parallel then " --parallel" else ""))%string).
  { intros l. unfold dependencies_command. rewrite Ht. simpl Py.format.
    f_equal.
    assert (Hnil : forall s : string, (s ++ "")%string = s)
      by (induction s as [| c s IH]; simpl; [| rewrite IH]; reflexivity).
    assert (Hassoc : forall a b c : string,
               ((a ++ b) ++ c)%string = (a ++ b ++ c)%string)
      by (induction a as [| x a IH]; intros; simpl; [| rewrite IH];
          reflexivity).
    destruct dev, parallel; rewrite ?Hnil, ?Hassoc; reflexivity. }
  split; [apply Hcmd |].
  split; [rewrite !Hcmd; reflexivity |].
  unfold install_dependencies. fold python_bin. rewrite !Hcmd. reflexivity.
Qed.

(** C3, as the code has it: when [verify_venv] refuses the environment,
    [install_dependencies] and [install_editable] answer failure in the world
    the verification left, and so does [install_dependencies] when neither a
    requirements file nor a package list is given.  No install command is
    run and nothing is slept; the one child process that may have been
    started is the [--version] probe of the verification itself. *)
Theorem install_refused_before_install_command
        (venv_path project_path : string)
        (requirements_file : option string)
        (package_list : option (list string))
        (dev parallel : bool) (w : World) :
  fst (verify_venv host venv_path w) = false \/
  (Py.truthy_str requirements_file = false /\
   Py.truthy_list package_list = false) ->
  let checked := snd (verify_venv host venv_path w) in
  install_dependencies host venv_path requirements_file package_list
                       dev parallel w = (false, checked) /\
  (fst (verify_venv host venv_path w) = false ->
   install_editable host venv_path project_path parallel w
   = (false, checked)) /\
  (trace checked = trace w \/
   trace checked =
   trace w ++ [EvRun (probe_args (Py.path_join venv_path ["bin"; "python"]))]).
Proof.
  intros H checked. subst checked.
  split; [| split].
  - unfold install_dependencies.
    destruct (verify_venv host venv_path w) as [[|] w1]; simpl in *.
    + destruct H as [H | [Hr Hp]]; [discriminate |].
      unfold dependencies_command. rewrite Hr, Hp. reflexivity.
    + reflexivity.
  - unfold install_editable.
    destruct (verify_venv host venv_path w) as [[|] w1]; simpl.
    + discriminate.
    + reflexivity.
  - apply verify_venv_trace.
Qed.

(** C10: when the cache root does not exist, [clean_cache] answers success
    at once, whatever [older_than_days] is, and the world is left exactly as
    it was: nothing removed, nothing created, no tree walked. *)
Theorem clean_cache_without_root (older_than_days : option Z) (w : World) :
  os_path_exists host (CACHE_DIR host) w = false ->
  clean_cache host older_than_days w = (true, w).
Proof.
  intros H. unfold clean_cache. rewrite H. reflexivity.
Qed.

End Environments.

Lemma create_venv_verdict_witness :
  create_venv Sample.failing "/venv" None 300 2 (Sample.start Sample.root)
  = verify_venv Sample.failing "/venv"
      (snd (run_command Sample.failing "uv venv /venv" false 300 2 true
                        (Sample.start Sample.root))).
Proof.
  destruct (@create_venv_verdict Sample.failing "/venv" None 300 2
              (Sample.start Sample.root)) as (H & _).
  - reflexivity.
  - apply H; reflexivity.
Defined.

Lemma requirements_file_takes_precedence_witness :
  install_dependencies Sample.working "/venv" (Some "requirements.txt")
                       (Some ["requests"; "numpy"]) false true
                       (Sample.start Sample.root)
  = install_dependencies Sample.working "/venv" (Some "requirements.txt")
                         None false true (Sample.start Sample.root).
Proof.
  destruct (@requirements_file_takes_precedence
              Sample.working "/venv" "requirements.txt"
              (Some ["requests"; "numpy"]) None false true
              (Sample.start Sample.root)) as (_ & _ & H).
  - discriminate.
  - exact H.
Defined.

(** The claim C3 read to the letter fails: with a sound environment and
    nothing to install, [install_dependencies] answers failure only after
    the verification has started its probe; and an environment whose probe
    exits non-zero is refused by [install_editable] after that probe ran. *)
Lemma install_refusal_follows_probe :
  let w := Sample.start Sample.root in
  let probe := EvRun (probe_args "/venv/bin/python") in
  let r := install_dependencies Sample.working "/venv" None None false true w in
  let e := install_editable Sample.failing "/venv" "/src/project" true w in
  (fst r = false /\ trace (snd r) = [probe] /\
   runs_in (trace (snd r)) <> runs_in (trace w)) /\
  (fst (verify_venv Sample.failing "/venv" w) = false /\
   fst e = false /\ trace (snd e) = [probe] /\
   runs_in (trace (snd e)) <> runs_in (trace w)).
Proof.
  vm_compute. repeat split; discriminate.
Qed.

Lemma install_refused_before_install_command_witness :
  let w := Sample.start (Dir []) in
  install_dependencies Sample.working "/venv" (Some "requirements.txt") None
                       false true w = (false, w) /\
  install_editable Sample.working "/venv" "/src/project" true w = (false, w).
Proof.
  destruct (@install_refused_before_install_command
              Sample.working "/venv" "/src/project" (Some "requirements.txt")
              None false true (Sample.start (Dir []))) as (Hd & He & _).
  - left. reflexivity.
  - split; [exact Hd | apply He; reflexivity].
Defined.

Lemma clean_cache_without_root_witness :
  clean_cache Sample.working (Some 7) (Sample.start Sample.root)
  = (true, Sample.start Sample.root).
Proof.
  apply (@clean_cache_without_root Sample.working (Some 7)
           (Sample.start Sample.root)).
  reflexivity.
Defined.

(** ** Paths: joining a name is descending one step *)

Section Paths.

Lemma append_empty (s : string) : (s ++ "")%string = s.
Proof. induction s as [| c s IH]; simpl; [| rewrite IH]; reflexivity. Qed.

Lemma append_assoc (a b c : string) :
  ((a ++ b) ++ c)%string = (a ++ b ++ c)%string.
Proof. induction a as [| x a IH]; simpl; [| rewrite IH]; reflexivity. Qed.

Lemma split_slash_nonempty (s : string) : FS.split_slash s <> [].
Proof.
  destruct s as [| c s]; simpl; [discriminate |].
  destruct (Ascii.eqb c "/"); [discriminate |].
  destruct (FS.split_slash s); discriminate.
Qed.

Lemma split_slash_append (a b : string) :
  FS.split_slash (a ++ String "/" b) = FS.split_slash a ++ FS.split_slash b.
Proof.
  induction a as [| c a IH]; simpl; [reflexivity |].
  destruct (Ascii.eqb c "/"); simpl; [rewrite IH; reflexivity |].
  rewrite IH.
  pose proof (split_slash_nonempty a) as Hne.
  destruct (FS.split_slash a) as [| h t]; [contradiction | reflexivity].
Qed.

Lemma split_slash_simple (f : string) :
  Tree.no_slash f = true -> FS.split_slash f = [f].
Proof.
  unfold Tree.no_slash.
  induction f as [| c f IH]; simpl; [reflexivity |].
  intros H. apply andb_true_iff in H as [Hc Hf].
  apply negb_true_iff in Hc. rewrite Hc, (IH Hf). reflexivity.
Qed.

Lemma components_simple (f : string) :
  Tree.simple f = true -> FS.components f = [f].
Proof.
  unfold Tree.simple, FS.components. intros H.
  apply andb_true_iff in H as [Hn Hs].
  rewrite (split_slash_simple f Hs). simpl. rewrite Hn. reflexivity.
Qed.

Lemma components_append (a b : string) :
  FS.components (a ++ String "/" b) = FS.components a ++ FS.components b.
Proof.
  unfold FS.components. rewrite split_slash_append. apply filter_app.
Qed.

Lemma endswith_slash_split (a : string) :
  Py.endswith_slash a = true -> exists a0, a = (a0 ++ "/")%string.
Proof.
  induction a as [| c a IH]; simpl; [discriminate |].
  destruct a as [| d a'].
  - intros H. apply Ascii.eqb_eq in H. subst c. exists "". reflexivity.
  - intros H. destruct (IH H) as [a0 Ha0]. exists (String c a0).
    simpl. rewrite <- Ha0. reflexivity.
Qed.

Lemma startswith_append (a b : string) :
  a <> ""%string -> Py.startswith "/" (a ++ b) = Py.startswith "/" a.
Proof.
  destruct a as [| c a]; [intros H; contradiction H; reflexivity |].
  intros _. reflexivity.
Qed.

Lemma simple_not_absolute (f : string) :
  Tree.simple f = true -> Py.startswith "/" f = false.
Proof.
  unfold Tree.simple, Tree.no_slash. intros H.
  apply andb_true_iff in H as [_ H].
  destruct f as [| c f]; [reflexivity |].
  change (Tree.no_slash (String c f)) with
    (negb (Ascii.eqb c "/") && Tree.no_slash f) in H.
  apply andb_true_iff in H as [Hc _]. apply negb_true_iff in Hc.
  change (Py.startswith "/" (String c f)) with (Ascii.eqb "/" c && true).
  rewrite Ascii.eqb_sym, Hc. reflexivity.
Qed.

Variable host : Host.

(** Joining a simple name to a directory path names the entry of that
    directory. *)
Lemma resolve_join (dirpath f : string) :
  Tree.simple f = true ->
  resolve host (Py.path_join dirpath [f]) = resolve host dirpath ++ [f].
Proof.
  intros Hf. unfold Py.path_join. simpl. unfold Py.path_join2.
  rewrite (simple_not_absolute f Hf).
  destruct (dirpath =? "")%string eqn:He.
  - apply String.eqb_eq in He. subst dirpath. simpl.
    unfold resolve. rewrite (simple_not_absolute f Hf).
    rewrite (components_simple f Hf). simpl.
    unfold FS.components. simpl. rewrite app_nil_r. reflexivity.
  - apply String.eqb_neq in He. simpl.
    destruct (Py.endswith_slash dirpath) eqn:Hs.
    + destruct (endswith_slash_split dirpath Hs) as [a0 Ha0].
      unfold resolve. rewrite (startswith_append dirpath f He).
      assert (Hc : FS.components (dirpath ++ f) = FS.components dirpath ++ [f]).
      { rewrite Ha0, append_assoc. simpl.
        rewrite !components_append, (components_simple f Hf).
        unfold FS.components at 3. simpl. rewrite app_nil_r. reflexivity. }
      rewrite Hc. destruct (Py.startswith "/" dirpath);
        rewrite ?app_assoc; reflexivity.
    + unfold resolve. rewrite (startswith_append dirpath _ He).
      change (dirpath ++ "/" ++ f)%string with (dirpath ++ String "/" f)%string.
      rewrite components_append, (components_simple f Hf).
      destruct (Py.startswith "/" dirpath); rewrite ?app_assoc; reflexivity.
Qed.

End Paths.

(** ** Entries of one directory *)

Section Entries.

Implicit Types (k : string) (v : node) (es pre : list (string * node)).

Lemma assoc_app_fresh k pre es :
  Tree.fresh k pre = true -> FS.assoc k (pre ++ es) = FS.assoc k es.
Proof.
  unfold Tree.fresh.
  induction pre as [| [k' v'] pre IH]; simpl; [reflexivity |].
  destruct (k' =? k)%string; [discriminate | exact IH].
Qed.

Lemma set_entry_app_fresh k (o : option node) pre v es :
  Tree.fresh k pre = true ->
  FS.set_entry k o (pre ++ (k, v) :: es) =
  pre ++ match o with Some n => (k, n) :: es | None => es end.
Proof.
  unfold Tree.fresh.
  induction pre as [| [k' v'] pre IH]; simpl.
  - intros _. rewrite String.eqb_refl. reflexivity.
  - destruct (k' =? k)%string; [discriminate |].
    intros H. rewrite (IH H). reflexivity.
Qed.

Lemma assoc_set_entry k v es :
  FS.assoc k (FS.set_entry k (Some v) es) = Some v.
Proof.
  induction es as [| [k' v'] es IH]; simpl.
  - rewrite String.eqb_refl. reflexivity.
  - destruct (k' =? k)%string eqn:E; simpl; rewrite E; [reflexivity | exact IH].
Qed.

Lemma set_entry_twice k v (o : option node) es :
  FS.set_entry k o (FS.set_entry k (Some v) es) = FS.set_entry k o es.
Proof.
  induction es as [| [k' v'] es IH]; simpl.
  - rewrite String.eqb_refl. reflexivity.
  - destruct (k' =? k)%string eqn:E; simpl; rewrite E;
      [reflexivity | rewrite IH; reflexivity].
Qed.

Lemma set_entry_same k v es :
  FS.assoc k es = Some v -> FS.set_entry k (Some v) es = es.
Proof.
  induction es as [| [k' v'] es IH]; simpl; [discriminate |].
  destruct (k' =? k)%string eqn:E.
  - intros [= ->]. reflexivity.
  - intros H. rewrite (IH H). reflexivity.
Qed.

Lemma fresh_app k pre es :
  Tree.fresh k (pre ++ es) = Tree.fresh k pre && Tree.fresh k es.
Proof.
  unfold Tree.fresh.
  induction pre as [| [k' v'] pre IH]; simpl; [reflexivity |].
  destruct (k' =? k)%string; [reflexivity | exact IH].
Qed.

Lemma fresh_cons k k' v es :
  Tree.fresh k ((k', v) :: es) = negb (k' =? k)%string && Tree.fresh k es.
Proof.
  unfold Tree.fresh. simpl. destruct (k' =? k)%string; reflexivity.
Qed.

End Entries.

(** ** Looking up and rewriting below a directory *)

Section Below.

Implicit Types (q r : list string) (n D : node).

Lemma lookup_app q r n :
  FS.lookup (q ++ r) n =
  match FS.lookup q n with
  | Some D => FS.lookup r D
  | None => None
  end.
Proof.
  revert n. induction q as [| c q IH]; intros n; simpl; [reflexivity |].
  destruct n as [m ct rm | es]; [reflexivity |].
  destruct (FS.assoc c es); [apply IH | reflexivity].
Qed.

Lemma alter_cons c r f es m :
  r <> [] -> FS.assoc c es = Some m ->
  FS.alter (c :: r) f (Dir es) = Dir (FS.set_entry c (Some (FS.alter r f m)) es).
Proof.
  intros Hr Hm. destruct r as [| c' r]; [contradiction Hr; reflexivity |].
  simpl. rewrite Hm. reflexivity.
Qed.

(** Rewriting below [q] is rewriting the directory found at [q]. *)
Lemma alter_app q r f n D :
  r <> [] ->
  FS.lookup q n = Some D ->
  FS.alter (q ++ r) f n = FS.alter q (fun _ => Some (FS.alter r f D)) n.
Proof.
  intros Hr. revert n.
  induction q as [| c q IH]; intros n Hq.
  - simpl in Hq. injection Hq as ->. reflexivity.
  - simpl in Hq. destruct n as [m0 ct rm | es]; [discriminate |].
    destruct (FS.assoc c es) as [m |] eqn:Hm; [| discriminate].
    change ((c :: q) ++ r) with (c :: (q ++ r)).
    rewrite (@alter_cons c (q ++ r) f es m); [| | exact Hm].
    2: { destruct q; [exact Hr | discriminate]. }
    rewrite (IH m Hq).
    destruct q as [| c' q].
    + reflexivity.
    + rewrite (@alter_cons c (c' :: q) _ es m);
        [reflexivity | discriminate | exact Hm].
Qed.

Lemma lookup_alter q n D X :
  FS.lookup q n = Some D ->
  FS.lookup q (FS.alter q (fun _ => Some X) n) = Some X.
Proof.
  revert n. induction q as [| c q IH]; intros n Hq.
  - reflexivity.
  - simpl in Hq. destruct n as [m0 ct rm | es]; [discriminate |].
    destruct (FS.assoc c es) as [m |] eqn:Hm; [| discriminate].
    destruct q as [| c' q].
    + simpl. rewrite assoc_set_entry. reflexivity.
    + rewrite (@alter_cons c (c' :: q) _ es m); [| discriminate | exact Hm].
      change (FS.lookup (c :: c' :: q) (Dir ?e)) with
        (match FS.assoc c e with
         | Some m' => FS.lookup (c' :: q) m'
         | None => None
         end).
      rewrite assoc_set_entry. apply (IH m Hq).
Qed.

Lemma alter_alter q n D X Y :
  FS.lookup q n = Some D ->
  FS.alter q (fun _ => Some Y) (FS.alter q (fun _ => Some X) n) =
  FS.alter q (fun _ => Some Y) n.
Proof.
  revert n. induction q as [| c q IH]; intros n Hq.
  - reflexivity.
  - simpl in Hq. destruct n as [m0 ct rm | es]; [discriminate |].
    destruct (FS.assoc c es) as [m |] eqn:Hm; [| discriminate].
    destruct q as [| c' q].
    + simpl. rewrite set_entry_twice. reflexivity.
    + rewrite (@alter_cons c (c' :: q) (fun _ => Some X) es m);
        [| discriminate | exact Hm].
      rewrite (@alter_cons c (c' :: q) (fun _ => Some Y) _
                           (FS.alter (c' :: q) (fun _ => Some X) m));
        [| discriminate | apply assoc_set_entry].
      rewrite (IH m Hq), set_entry_twice.
      rewrite (@alter_cons c (c' :: q) (fun _ => Some Y) es m);
        [reflexivity | discriminate | exact Hm].
Qed.

Lemma alter_same q n D :
  FS.lookup q n = Some D -> FS.alter q (fun _ => Some D) n = n.
Proof.
  revert n. induction q as [| c q IH]; intros n Hq.
  - simpl in *. congruence.
  - simpl in Hq. destruct n as [m0 ct rm | es]; [discriminate |].
    destruct (FS.assoc c es) as [m |] eqn:Hm; [| discriminate].
    destruct q as [| c' q].
    + simpl in Hq. injection Hq as ->. simpl.
      rewrite (set_entry_same _ _ _ Hm). reflexivity.
    + rewrite (@alter_cons c (c' :: q) _ es m); [| discriminate | exact Hm].
      rewrite (IH m Hq), (set_entry_same _ _ _ Hm). reflexivity.
Qed.

End Below.

Lemma assoc_set_entry_other (c k : string) (o : option node)
      (es : list (string * node)) :
  (c =? k)%string = false ->
  FS.assoc k (FS.set_entry c o es) = FS.assoc k es.
Proof.
  intros Hne.
  induction es as [| [k' v'] es IH]; simpl.
  - destruct o; simpl; [rewrite Hne |]; reflexivity.
  - destruct (k' =? c)%string eqn:E.
    + apply String.eqb_eq in E. subst k'. rewrite Hne.
      destruct o; simpl; [rewrite Hne |]; reflexivity.
    + simpl. destruct (k' =? k)%string; [reflexivity | exact IH].
Qed.

(** Rewriting at a path leaves alone whatever is reached by leaving that
    path at some component. *)
Lemma lookup_alter_apart (common : list string) (a b : string)
      (p q : list string) (f : option node -> option node) :
  (b =? a)%string = false ->
  forall n,
    FS.lookup (common ++ a :: p) (FS.alter (common ++ b :: q) f n) =
    FS.lookup (common ++ a :: p) n.
Proof.
  intros Hne.
  induction common as [| c common IH]; intros n.
  - destruct n as [m ct rm | es]; [destruct q; reflexivity |].
    cbn [app].
    assert (Hes : exists es', FS.alter (b :: q) f (Dir es) = Dir es' /\
                              FS.assoc a es' = FS.assoc a es).
    { destruct q as [| c' q].
      - eexists. split; [reflexivity |].
        apply assoc_set_entry_other. exact Hne.
      - cbn [FS.alter]. destruct (FS.assoc b es) as [m |].
        + eexists. split; [reflexivity |].
          apply assoc_set_entry_other. exact Hne.
        + eexists. split; reflexivity. }
    destruct Hes as (es' & -> & Hes).
    cbn [FS.lookup]. rewrite Hes. reflexivity.
  - destruct n as [m ct rm | es].
    + destruct common; reflexivity.
    + change ((c :: common) ++ b :: q) with (c :: (common ++ b :: q)).
      change ((c :: common) ++ a :: p) with (c :: (common ++ a :: p)).
      destruct (FS.assoc c es) as [m |] eqn:Hm.
      * rewrite (alter_cons c (common ++ b :: q) f es m);
          [| destruct common; discriminate | exact Hm].
        cbn [FS.lookup]. rewrite assoc_set_entry, Hm. apply IH.
      * assert (Hsame : FS.alter (c :: common ++ b :: q) f (Dir es) = Dir es).
        { destruct common; cbn [app FS.alter]; rewrite Hm; reflexivity. }
        rewrite Hsame. reflexivity.
Qed.

(** ** Induction over trees *)

Lemma node_induction (P : node -> Prop) :
  (forall mtime content removable, P (File mtime content removable)) ->
  (forall es, Forall (fun e => P (snd e)) es -> P (Dir es)) ->
  forall n, P n.
Proof.
  intros HF HD.
  fix IH 1.
  intros [m ct rm | es]; [apply HF |].
  apply HD.
  induction es as [| [k v] es IHes]; constructor; [apply IH | exact IHes].
Qed.

Lemma prune_dir (cutoff : Z) (es : list (string * node)) :
  Tree.prune cutoff (Dir es) = Dir (Tree.prune_entries cutoff es).
Proof.
  simpl. f_equal.
  induction es as [| [k v] es IH]; simpl; [reflexivity |].
  rewrite IH. reflexivity.
Qed.

Lemma well_formed_dir (es : list (string * node)) :
  Tree.well_formed (Dir es) = Tree.well_formed_entries es.
Proof.
  simpl.
  induction es as [| [k v] es IH]; simpl; [reflexivity |].
  rewrite IH. reflexivity.
Qed.

Lemma fresh_apart (k : string) (es : list (string * node)) :
  Tree.fresh k es = true ->
  Forall (fun e => (k =? fst e)%string = false) es.
Proof.
  unfold Tree.fresh.
  induction es as [| [k' v'] es IH]; simpl; [constructor |].
  destruct (k' =? k)%string eqn:E; [discriminate |].
  intros H. constructor; [| exact (IH H)].
  simpl. rewrite String.eqb_sym. exact E.
Qed.

Lemma apart_nil (suf : list (string * node)) : apart [] suf.
Proof. induction suf; constructor; [reflexivity | assumption]. Qed.

Lemma apart_step (pre suf : list (string * node)) (k : string) (v x : node) :
  apart pre ((k, v) :: suf) ->
  Tree.fresh k suf = true ->
  apart (pre ++ [(k, x)]) suf.
Proof.
  intros Hap Hfr. inversion Hap as [| e l _ Htl]; subst.
  pose proof (fresh_apart k suf Hfr) as Hne.
  unfold apart in *. rewrite Forall_forall in *.
  intros e He. rewrite fresh_app, (Htl e He), fresh_cons.
  rewrite (Hne e He). reflexivity.
Qed.

Lemma apart_tail (pre suf : list (string * node)) (e : string * node) :
  apart pre (e :: suf) -> apart pre suf.
Proof. intros H. inversion H; assumption. Qed.

Lemma apart_head (pre suf : list (string * node)) (k : string) (v : node) :
  apart pre ((k, v) :: suf) -> Tree.fresh k pre = true.
Proof. intros H. inversion H; assumption. Qed.

Lemma well_formed_cons (k : string) (v : node) (es : list (string * node)) :
  Tree.well_formed_entries ((k, v) :: es) = true ->
  Tree.simple k = true /\ Tree.fresh k es = true /\
  Tree.well_formed v = true /\ Tree.well_formed_entries es = true.
Proof.
  simpl. intros H.
  apply andb_true_iff in H as [H Hrest].
  apply andb_true_iff in H as [H Hv].
  apply andb_true_iff in H as [Hk Hfr].
  repeat split; assumption.
Qed.

Section Sweep.

Variable host : Host.
Variable cutoff : Z.

Lemma clean_file_fs (dirpath f : string) (w : World) :
  Tree.simple f = true ->
  fs (clean_file host cutoff dirpath w f) =
  unlink_stale cutoff (resolve host dirpath ++ [f]) (fs w).
Proof.
  intros Hf. unfold clean_file, unlink_stale, os_path_exists,
    os_path_getmtime, os_remove.
  rewrite (resolve_join host dirpath f Hf).
  destruct (FS.lookup (resolve host dirpath ++ [f]) (fs w))
    as [[m ct [|] | es] |]; simpl; try reflexivity.
  - destruct (m <? cutoff); reflexivity.
  - destruct (m <? cutoff); reflexivity.
  - destruct (0 <? cutoff); reflexivity.
Qed.

Lemma clean_listing_app (l1 l2 : list (string * list string * list string))
      (w : World) :
  clean_listing host cutoff (l1 ++ l2) w =
  clean_listing host cutoff l2 (clean_listing host cutoff l1 w).
Proof. unfold clean_listing. apply fold_left_app. Qed.

(** Unlinking a stale entry of the directory found at [q]. *)
Lemma unlink_stale_entry (q : list string) (k : string) (v : node)
      (pre suf : list (string * node)) (n : node) :
  Tree.fresh k pre = true ->
  FS.lookup q n = Some (Dir (pre ++ (k, v) :: suf)) ->
  unlink_stale cutoff (q ++ [k]) n =
  if Tree.stale cutoff v
  then FS.alter q (fun _ => Some (Dir (pre ++ suf))) n
  else n.
Proof.
  intros Hpre Hlook. unfold unlink_stale.
  rewrite lookup_app, Hlook. simpl.
  rewrite (assoc_app_fresh k pre _ Hpre). simpl.
  rewrite String.eqb_refl.
  destruct (Tree.stale cutoff v); [| reflexivity].
  rewrite (alter_app q [k] _ n (Dir (pre ++ (k, v) :: suf)));
    [| discriminate | exact Hlook].
  simpl.
  rewrite (set_entry_app_fresh k None pre v suf Hpre). reflexivity.
Qed.

Variable q : list string.
Variable dirpath : string.
Hypothesis Hq : resolve host dirpath = q.

(** The inner loop: the regular files of one directory. *)
Lemma files_swept (suf : list (string * node)) :
  forall (pre : list (string * node)) (w : World),
    Tree.well_formed_entries suf = true ->
    apart pre suf ->
    FS.lookup q (fs w) = Some (Dir (pre ++ suf)) ->
    fs (fold_left (clean_file host cutoff dirpath) (FS.filenames suf) w) =
    FS.alter q (fun _ => Some (Dir (pre ++ Tree.prune_files cutoff suf)))
             (fs w).
Proof.
  induction suf as [| [k v] suf IH]; intros pre w Hwf Hap Hlook.
  - simpl. symmetry. apply alter_same. exact Hlook.
  - apply well_formed_cons in Hwf as (Hk & Hfr & Hv & Hrest).
    pose proof (apart_head pre suf k v Hap) as Hpre.
    assert (Hkeep : forall w',
               FS.lookup q (fs w') = Some (Dir (pre ++ (k, v) :: suf)) ->
               fs (fold_left (clean_file host cutoff dirpath)
                             (FS.filenames suf) w') =
               FS.alter q
                 (fun _ => Some (Dir (pre ++ (k, v)
                                          :: Tree.prune_files cutoff suf)))
                 (fs w')).
    { intros w' Hl.
      rewrite (IH (pre ++ [(k, v)]) w' Hrest).
      - rewrite <- app_assoc. reflexivity.
      - apply (apart_step pre suf k v v Hap Hfr).
      - rewrite <- app_assoc. exact Hl. }
    destruct v as [m ct rm | ces].
    + (* a regular file: the loop visits it *)
      change (FS.filenames ((k, File m ct rm) :: suf))
        with (k :: FS.filenames suf).
      simpl fold_left.
      pose proof (clean_file_fs dirpath k w Hk) as Hfs.
      rewrite Hq, (unlink_stale_entry q k _ pre suf (fs w) Hpre Hlook) in Hfs.
      cbn [Tree.prune_files].
      destruct (Tree.stale cutoff (File m ct rm)) eqn:Hst.
      * rewrite (IH pre _ Hrest (apart_tail pre suf _ Hap)).
        -- rewrite Hfs. apply (alter_alter q (fs w) _ _ _ Hlook).
        -- rewrite Hfs. apply (lookup_alter q (fs w) _ _ Hlook).
      * rewrite (Hkeep (clean_file host cutoff dirpath w k));
          rewrite Hfs; [reflexivity | exact Hlook].
    + (* a directory: not among the file names *)
      change (FS.filenames ((k, Dir ces) :: suf)) with (FS.filenames suf).
      cbn [Tree.prune_files].
      apply Hkeep. exact Hlook.
Qed.

End Sweep.

Section SweepTree.

Variable host : Host.
Variable cutoff : Z.

(** The outer loop: the subdirectories of one directory, in turn. *)
Lemma dirs_swept (dirpath : string) (suf : list (string * node)) :
  Forall (fun e => swept host cutoff (snd e)) suf ->
  forall (pre : list (string * node)) (w : World),
    Tree.well_formed_entries suf = true ->
    apart pre suf ->
    FS.lookup (resolve host dirpath) (fs w) =
    Some (Dir (pre ++ Tree.prune_files cutoff suf)) ->
    fs (clean_listing host cutoff
          (flat_map (fun e => FS.walk (Py.path_join dirpath [fst e]) (snd e))
                    suf) w) =
    FS.alter (resolve host dirpath)
             (fun _ => Some (Dir (pre ++ Tree.prune_entries cutoff suf)))
             (fs w).
Proof.
  set (q := resolve host dirpath).
  induction suf as [| [k v] suf IH]; intros Hall pre w Hwf Hap Hlook.
  - simpl. symmetry. apply alter_same. exact Hlook.
  - apply well_formed_cons in Hwf as (Hk & Hfr & Hv & Hrest).
    pose proof (apart_head pre suf k v Hap) as Hpre.
    inversion Hall as [| e l Hhere Hthere]; subst e l. simpl in Hhere.
    cbn [flat_map fst snd]. rewrite clean_listing_app.
    cbn [Tree.prune_files Tree.prune_entries] in *.
    destruct (Tree.stale cutoff v) eqn:Hst.
    + (* a stale file, already unlinked by the inner loop *)
      destruct v as [m ct rm | ces]; [| discriminate].
      change (clean_listing host cutoff (FS.walk ?p (File m ct rm)) w) with w.
      apply (IH Hthere pre w Hrest (apart_tail pre suf _ Hap) Hlook).
    + destruct v as [m ct rm | ces].
      * (* a file that stays *)
        change (clean_listing host cutoff (FS.walk ?p (File m ct rm)) w)
          with w.
        rewrite (IH Hthere (pre ++ [(k, File m ct rm)]) w Hrest).
        -- rewrite <- app_assoc. reflexivity.
        -- apply (apart_step pre suf k _ _ Hap Hfr).
        -- rewrite <- app_assoc. exact Hlook.
      * (* a subdirectory: the walk descends into it *)
        set (child := Dir ces) in *.
        set (sub := Py.path_join dirpath [k]).
        assert (Hsub : resolve host sub = q ++ [k])
          by (apply resolve_join; exact Hk).
        assert (Hchild : FS.lookup (resolve host sub) (fs w) = Some child).
        { rewrite Hsub, lookup_app. fold q in Hlook. rewrite Hlook. simpl.
          rewrite (assoc_app_fresh k pre _ Hpre). simpl.
          rewrite String.eqb_refl. reflexivity. }
        pose proof (Hhere Hv sub w Hchild) as Hdone.
        rewrite Hsub in Hdone.
        rewrite (alter_app q [k] _ (fs w) _ (ltac:(discriminate)) Hlook)
          in Hdone.
        simpl FS.alter in Hdone at 2.
        rewrite (set_entry_app_fresh k _ pre child _ Hpre) in Hdone.
        rewrite (IH Hthere (pre ++ [(k, Tree.prune cutoff child)]) _ Hrest).
        -- rewrite Hdone, <- app_assoc.
           apply (alter_alter q (fs w) _ _ _ Hlook).
        -- apply (apart_step pre suf k _ _ Hap Hfr).
        -- rewrite Hdone, <- app_assoc.
           apply (lookup_alter q (fs w) _ _ Hlook).
Qed.

(** The two loops together turn the tree at [dirpath] into its pruning. *)
Lemma walk_swept (D : node) : swept host cutoff D.
Proof.
  induction D as [m ct rm | es IH] using node_induction;
    intros Hwf dirpath w Hlook.
  - simpl. symmetry. apply alter_same. exact Hlook.
  - rewrite well_formed_dir in Hwf. rewrite prune_dir.
    cbn [FS.walk].
    change (clean_listing host cutoff (?t :: ?l) w)
      with (clean_listing host cutoff l
              (fold_left (clean_file host cutoff dirpath)
                         (FS.filenames es) w)).
    set (w1 := fold_left (clean_file host cutoff dirpath)
                         (FS.filenames es) w).
    assert (H1 : fs w1 =
                 FS.alter (resolve host dirpath)
                   (fun _ => Some (Dir (Tree.prune_files cutoff es))) (fs w)).
    { apply (files_swept host cutoff (resolve host dirpath) dirpath
               eq_refl es [] w Hwf (apart_nil es) Hlook). }
    rewrite (dirs_swept dirpath es IH [] w1 Hwf (apart_nil es)).
    + rewrite H1. apply (alter_alter _ (fs w) _ _ _ Hlook).
    + rewrite H1. apply (lookup_alter _ (fs w) _ _ Hlook).
Qed.

End SweepTree.

(** ** What pruning keeps *)

Section Pruned.

Variable cutoff : Z.

Lemma fresh_prune_entries (k : string) (es : list (string * node)) :
  Tree.fresh k es = true -> Tree.fresh k (Tree.prune_entries cutoff es) = true.
Proof.
  induction es as [| [k' v'] es IH]; [reflexivity |].
  rewrite fresh_cons. intros H. apply andb_true_iff in H as [Hne Hfr].
  cbn [Tree.prune_entries].
  destruct (Tree.stale cutoff v'); [exact (IH Hfr) |].
  rewrite fresh_cons, Hne. exact (IH Hfr).
Qed.


Lemma assoc_well_formed (k : string) (v : node) (es : list (string * node)) :
  Tree.well_formed_entries es = true ->
  FS.assoc k es = Some v -> Tree.well_formed v = true.
Proof.
  induction es as [| [k' v'] es IH]; [discriminate |].
  intros Hwf. apply well_formed_cons in Hwf as (Hk & Hfr & Hv & Hrest).
  simpl. destruct (k' =? k)%string; [intros [= <-]; exact Hv | exact (IH Hrest)].
Qed.


End Pruned.

(** ** The two modes of [clean_cache] *)

Section Modes.

Variable host : Host.

Lemma get_directory_size_world (p : string) (w : World) :
  snd (get_directory_size host p w) = record (EvWalk p) w.
Proof. reflexivity. Qed.

(** The age-bounded mode, taken for every supplied number of days other
    than zero: [clean_cache] answers success and the cache tree becomes its
    pruning at [now - days]; the rest of the file system is not touched. *)
Theorem clean_cache_age_bounded (older_than_days : Z) (w : World)
        (es : list (string * node)) :
  older_than_days <> 0 ->
  FS.lookup (resolve host (CACHE_DIR host)) (fs w) = Some (Dir es) ->
  Tree.well_formed (Dir es) = true ->
  let cutoff_time := clock w - older_than_days * 24 * 60 * 60 in
  let r := clean_cache host (Some older_than_days) w in
  fst r = true /\
  fs (snd r) =
  FS.alter (resolve host (CACHE_DIR host))
           (fun _ => Some (Tree.prune cutoff_time (Dir es))) (fs w).
Proof.
  intros Hd Hlook Hwf cutoff_time r. subst r.
  unfold clean_cache, os_path_exists. rewrite Hlook. cbn [negb].
  pose proof (get_directory_size_world (CACHE_DIR host) w) as Hw1.
  destruct (get_directory_size host (CACHE_DIR host) w) as [before w1].
  simpl in Hw1. subst w1.
  assert (Ht : Py.truthy_int (Some older_than_days) = true)
    by (simpl; apply negb_true_iff, Z.eqb_neq; exact Hd).
  rewrite Ht. unfold os_walk. cbn [fs record Py.days clock].
  rewrite Hlook.
  fold cutoff_time.
  set (w2 := record (EvWalk (CACHE_DIR host)) (record (EvWalk (CACHE_DIR host)) w)).
  pose proof (walk_swept host cutoff_time (Dir es) Hwf (CACHE_DIR host) w2 Hlook)
    as Hswept.
  set (w3 := clean_listing host cutoff_time (FS.walk (CACHE_DIR host) (Dir es)) w2)
    in *.
  pose proof (get_directory_size_world (CACHE_DIR host) w3) as Hw4.
  destruct (get_directory_size host (CACHE_DIR host) w3) as [after w4].
  simpl in Hw4. subst w4.
  split; [reflexivity | exact Hswept].
Qed.

End Modes.

(** ** Removing and recreating a directory *)

Section Wipe.

Lemma rmtree_node_dir (es : list (string * node)) :
  FS.rmtree_node (Dir es) =
  match FS.rmtree_entries es with
  | [] => None
  | left_over => Some (Dir left_over)
  end.
Proof.
  cbn [FS.rmtree_node].
  match goal with
  | |- match ?g es with _ => _ end = _ =>
      assert (Hgo : forall l, g l = FS.rmtree_entries l)
  end.
  { induction l as [| [k v] l IH]; [reflexivity |].
    cbn [FS.rmtree_entries]. rewrite <- IH. reflexivity. }
  rewrite Hgo. reflexivity.
Qed.

Lemma removable_tree_cons (k : string) (v : node) (es : list (string * node)) :
  Tree.removable_tree (Dir ((k, v) :: es)) =
  Tree.removable_tree v && Tree.removable_tree (Dir es).
Proof. reflexivity. Qed.

(** A tree whose files may all be unlinked goes entirely. *)
Lemma rmtree_removable (n : node) :
  Tree.removable_tree n = true -> FS.rmtree_node n = None.
Proof.
  induction n as [m ct rm | es IH] using node_induction.
  - simpl. intros ->. reflexivity.
  - intros Hrm. rewrite rmtree_node_dir.
    assert (Hes : FS.rmtree_entries es = []).
    { induction es as [| [k v] es IHes]; [reflexivity |].
      rewrite removable_tree_cons in Hrm.
      apply andb_true_iff in Hrm as [Hv Hrest].
      inversion IH as [| e l Hhere Hthere]; subst e l. simpl in Hhere.
      cbn [FS.rmtree_entries]. rewrite (Hhere Hv).
      exact (IHes Hthere Hrest). }
    rewrite Hes. reflexivity.
Qed.

Lemma rmtree_entries_removable (es : list (string * node)) :
  Tree.removable_tree (Dir es) = true -> FS.rmtree_entries es = [].
Proof.
  intros H. apply rmtree_removable in H. rewrite rmtree_node_dir in H.
  destruct (FS.rmtree_entries es); [reflexivity | discriminate].
Qed.

Lemma fresh_set_entry_none (c : string) (es : list (string * node)) :
  Tree.well_formed_entries es = true ->
  Tree.fresh c (FS.set_entry c None es) = true.
Proof.
  induction es as [| [k v] es IH]; [reflexivity |].
  intros Hwf. apply well_formed_cons in Hwf as (Hk & Hfr & Hv & Hrest).
  cbn [FS.set_entry].
  destruct (k =? c)%string eqn:E.
  - apply String.eqb_eq in E. subst k. exact Hfr.
  - rewrite fresh_cons, E. exact (IH Hrest).
Qed.

Lemma set_entry_fresh (c : string) (v : node) (es : list (string * node)) :
  Tree.fresh c es = true -> FS.set_entry c (Some v) es = es ++ [(c, v)].
Proof.
  induction es as [| [k x] es IH]; [reflexivity |].
  rewrite fresh_cons. intros H. apply andb_true_iff in H as [Hne Hfr].
  apply negb_true_iff in Hne.
  cbn [FS.set_entry]. rewrite Hne, (IH Hfr). reflexivity.
Qed.

Lemma lookup_well_formed (q : list string) :
  forall n D,
    Tree.well_formed n = true ->
    FS.lookup q n = Some D -> Tree.well_formed D = true.
Proof.
  induction q as [| c q IH]; intros n D Hwf Hl.
  - simpl in Hl. congruence.
  - destruct n as [m ct rm | es]; [discriminate |].
    cbn [FS.lookup] in Hl. rewrite well_formed_dir in Hwf.
    destruct (FS.assoc c es) as [v |] eqn:Hv; [| discriminate].
    exact (IH v D (assoc_well_formed c v es Hwf Hv) Hl).
Qed.

(** [makedirs] of a name that a directory does not hold yet adds it, empty,
    at the end of that directory. *)
Lemma mkdirs_new_child (k : string) (q : list string) :
  forall n es,
    FS.lookup q n = Some (Dir es) ->
    Tree.fresh k es = true ->
    FS.mkdirs (q ++ [k]) n =
    Some (FS.alter q (fun _ => Some (Dir (es ++ [(k, Dir [])]))) n).
Proof.
  induction q as [| c q IH]; intros n es Hl Hfr.
  - simpl in Hl. injection Hl as ->.
    cbn [app FS.mkdirs]. unfold Tree.fresh in Hfr.
    destruct (FS.assoc k es) eqn:Hk; [discriminate |].
    cbn [FS.mkdirs]. fold (Tree.fresh k es) in Hfr.
    rewrite set_entry_fresh; [reflexivity |].
    unfold Tree.fresh. rewrite Hk. reflexivity.
  - destruct n as [m ct rm | pes]; [discriminate |].
    cbn [FS.lookup] in Hl.
    destruct (FS.assoc c pes) as [v |] eqn:Hv; [| discriminate].
    change ((c :: q) ++ [k]) with (c :: (q ++ [k])).
    cbn [FS.mkdirs]. rewrite Hv, (IH v es Hl Hfr).
    destruct q as [| c' q].
    + reflexivity.
    + rewrite (alter_cons c (c' :: q) _ pes v (ltac:(discriminate)) Hv).
      reflexivity.
Qed.

End Wipe.

Section FullWipe.

Variable host : Host.

(** The full wipe, taken when [older_than_days] is absent (or fails the
    truth test): when every file of the cache may be unlinked,
    [clean_cache] answers success and the cache root is left holding one
    empty [downloads] directory. *)
Theorem clean_cache_full_wipe (older_than_days : option Z) (w : World)
        (es : list (string * node)) :
  Py.truthy_int older_than_days = false ->
  Tree.well_formed (fs w) = true ->
  resolve host (CACHE_DIR host) <> [] ->
  FS.lookup (resolve host (CACHE_DIR host)) (fs w) = Some (Dir es) ->
  Tree.removable_tree (Dir es) = true ->
  let r := clean_cache host older_than_days w in
  fst r = true /\
  FS.lookup (resolve host (CACHE_DIR host)) (fs (snd r)) =
  Some (Dir [("downloads", Dir [])]).
Proof.
  intros Hmode Hwf Hq Hlook Hrm r. subst r.
  remember (resolve host (CACHE_DIR host)) as q eqn:Eq.
  destruct (exists_last Hq) as (q0 & c & Hq0).
  assert (Hparent : exists pes,
             FS.lookup q0 (fs w) = Some (Dir pes) /\
             FS.assoc c pes = Some (Dir es)).
  { rewrite Hq0, lookup_app in Hlook.
    destruct (FS.lookup q0 (fs w)) as [[m ct rm | pes] |];
      try discriminate.
    exists pes. split; [reflexivity |].
    simpl in Hlook. destruct (FS.assoc c pes); congruence. }
  destruct Hparent as (pes & Hp & Hc).
  assert (Hpwf : Tree.well_formed_entries pes = true).
  { rewrite <- well_formed_dir.
    exact (lookup_well_formed q0 (fs w) (Dir pes) Hwf Hp). }
  (* the file system after [shutil.rmtree] *)
  remember (FS.alter q (fun _ => None) (fs w)) as n2 eqn:En2.
  assert (Hn2 : n2 = FS.alter q0
                       (fun _ => Some (Dir (FS.set_entry c None pes))) (fs w)).
  { rewrite En2, Hq0.
    rewrite (alter_app q0 [c] _ (fs w) (Dir pes) (ltac:(discriminate)) Hp).
    reflexivity. }
  assert (Hp2 : FS.lookup q0 n2 = Some (Dir (FS.set_entry c None pes)))
    by (rewrite Hn2; apply (lookup_alter q0 (fs w) _ _ Hp)).
  (* the file system after [os.makedirs(CACHE_DIR)] *)
  pose proof (mkdirs_new_child c q0 n2 _ Hp2 (fresh_set_entry_none c pes Hpwf))
    as Hmk1.
  rewrite <- Hq0 in Hmk1.
  remember (FS.alter q0
              (fun _ => Some (Dir (FS.set_entry c None pes ++ [(c, Dir [])])))
              n2) as n3 eqn:En3.
  assert (Hl3 : FS.lookup q n3 = Some (Dir [])).
  { rewrite Hq0, lookup_app, En3.
    rewrite (lookup_alter q0 n2 _ _ Hp2). simpl.
    rewrite (assoc_app_fresh c _ _ (fresh_set_entry_none c pes Hpwf)).
    simpl. rewrite String.eqb_refl. reflexivity. }
  (* the file system after [os.makedirs(DOWNLOAD_CACHE)] *)
  assert (Hdl : resolve host (DOWNLOAD_CACHE host) = q ++ ["downloads"])
    by (rewrite Eq; apply resolve_join; reflexivity).
  pose proof (mkdirs_new_child "downloads" q n3 [] Hl3 eq_refl) as Hmk2.
  rewrite <- Hdl in Hmk2.
  (* running the code *)
  enough (Hrun : exists w',
             clean_cache host older_than_days w = (true, w') /\
             FS.lookup q (fs w') = Some (Dir [("downloads", Dir [])]))
    by (destruct Hrun as (w' & -> & H); split; [reflexivity | exact H]).
  unfold clean_cache, os_path_exists. rewrite <- Eq, Hlook. cbn [negb].
  pose proof (get_directory_size_world host (CACHE_DIR host) w) as Hw1.
  destruct (get_directory_size host (CACHE_DIR host) w) as [before w1].
  simpl in Hw1. subst w1. rewrite Hmode.
  unfold shutil_rmtree. cbn [fs record]. rewrite <- Eq, Hlook.
  rewrite (rmtree_entries_removable es Hrm).
  destruct q as [| c0 q']; [contradiction Hq; reflexivity |].
  rewrite <- En2. cbn [negb].
  unfold os_makedirs at 1. cbn [fs record set_fs]. rewrite <- Eq, Hmk1.
  cbn [negb].
  unfold os_makedirs. cbn [fs record set_fs]. rewrite Hmk2.
  cbn [negb].
  match goal with
  | |- context [get_directory_size host (CACHE_DIR host) ?x] =>
      pose proof (get_directory_size_world host (CACHE_DIR host) x) as Hw5;
      destruct (get_directory_size host (CACHE_DIR host) x) as [after w5]
  end.
  simpl in Hw5. subst w5.
  eexists. split; [reflexivity |].
  cbn [fs record set_fs].
  apply (lookup_alter _ n3 _ _ Hl3).
Qed.

End FullWipe.

Lemma clean_cache_age_bounded_example :
  let w := Sample.start Sample.home in
  fs (snd (clean_cache Sample.working (Some 1) w)) =
  FS.alter Sample.cache_root
           (fun _ => Some (Tree.prune (100000 - 86400) Sample.cache)) (fs w).
Proof.
  destruct (clean_cache_age_bounded Sample.working 1 (Sample.start Sample.home)
              [("downloads", Dir [("a.whl", File 10 "abc" true)]);
               ("wheels", Dir [("stale.whl", File 5 "x" true);
                               ("fresh.whl", File 200000 "yy" true)])])
    as [_ H].
  - discriminate.
  - reflexivity.
  - reflexivity.
  - exact H.
Defined.

Lemma clean_cache_full_wipe_example :
  let w := Sample.start Sample.home in
  FS.lookup Sample.cache_root (fs (snd (clean_cache Sample.working None w))) =
  Some (Dir [("downloads", Dir [])]).
Proof.
  destruct (clean_cache_full_wipe Sample.working None (Sample.start Sample.home)
              [("downloads", Dir [("a.whl", File 10 "abc" true)]);
               ("wheels", Dir [("stale.whl", File 5 "x" true);
                               ("fresh.whl", File 200000 "yy" true)])])
    as [_ H].
  - reflexivity.
  - reflexivity.
  - discriminate.
  - reflexivity.
  - reflexivity.
  - exact H.
Defined.

(** ** The cache at zero days *)

(** A supplied zero is treated as no value at all. *)
Lemma clean_cache_zero_is_absent (host : Host) (w : World) :
  clean_cache host (Some 0) w = clean_cache host None w.
Proof. reflexivity. Qed.

(** C5 at [older_than_days = 0]: the truth test [if older_than_days:] sends
    a supplied zero down the full-wipe branch.  The tree is removed and
    recreated: the [wheels] directory and the file whose modification time
    lies after the present are gone, where the age-bounded walk (shown
    beside it for one day) keeps both. *)
Theorem clean_cache_zero_days_wipes :
  let w := Sample.start Sample.home in
  let wiped := clean_cache Sample.working (Some 0) w in
  let pruned := clean_cache Sample.working (Some 1) w in
  FS.lookup (Sample.cache_root ++ ["wheels"; "fresh.whl"]) (fs w)
  = Some (File 200000 "yy" true) /\
  fst wiped = true /\
  FS.lookup Sample.cache_root (fs (snd wiped))
  = Some (Dir [("downloads", Dir [])]) /\
  FS.lookup (Sample.cache_root ++ ["wheels"]) (fs (snd wiped)) = None /\
  trace (snd wiped)
  = [EvWalk "/home/dev/Agentic/cache/uv";
     EvRmtree "/home/dev/Agentic/cache/uv" true;
     EvMakedirs "/home/dev/Agentic/cache/uv" true;
     EvMakedirs "/home/dev/Agentic/cache/uv/downloads" true;
     EvWalk "/home/dev/Agentic/cache/uv"] /\
  fst pruned = true /\
  FS.lookup Sample.cache_root (fs (snd pruned))
  = Some (Dir [("downloads", Dir []);
               ("wheels", Dir [("fresh.whl", File 200000 "yy" true)])]).
Proof.
  vm_compute. repeat split; reflexivity.
Qed.

(** * Further properties *)

(** ** The shape of every run of the retry loop *)

Section LoopShape.

Variable host : Host.
Variables (command : string) (capture_output : bool) (timeout retries : Z).
Variable check_interruption : bool.

Let loop := run_command_loop host command capture_output timeout retries
                             check_interruption.
Let call := shell_args command capture_output timeout.

(** What a run may append to the trace: [k] attempts with the delay between
    them, and possibly one more delay when the loop was cancelled on its way
    to the next attempt. *)
Lemma failed_attempts_then (k : nat) :
  EvRun call :: EvSleep RETRY_DELAY :: failed_attempts call (S k) =
  failed_attempts call (S (S k)).
Proof. reflexivity. Qed.

Lemma loop_shape (n : nat) :
  forall attempt w,
    retries - attempt <= Z.of_nat n ->
    exists k,
      (k <= n)%nat /\
      (trace (snd (loop attempt w)) = trace w ++ failed_attempts call k \/
       (1 <= k)%nat /\
       trace (snd (loop attempt w)) =
       trace w ++ failed_attempts call k ++ [EvSleep RETRY_DELAY]).
Proof.
  induction n as [| n IH]; intros attempt w Hleft.
  all: unfold loop; rewrite run_command_loop_step; fold loop; fold call.
  - rewrite (proj2 (Z.ltb_ge attempt retries)) by lia.
    exists 0%nat. split; [lia |]. left. simpl. rewrite app_nil_r. reflexivity.
  - destruct (attempt <? retries) eqn:Hlt;
      [| exists 0%nat; split; [lia |]; left; simpl; rewrite app_nil_r;
         reflexivity].
    destruct (check_interruption && INTERRUPTED w);
      [exists 0%nat; split; [lia |]; left; simpl; rewrite app_nil_r;
       reflexivity |].
    pose proof (subprocess_run_trace host call w) as Htr.
    destruct (subprocess_run host call w) as [r w1]. simpl in Htr.
    assert (Hone : exists k,
               (k <= S n)%nat /\
               (trace w1 = trace w ++ failed_attempts call k \/
                (1 <= k)%nat /\
                trace w1 =
                trace w ++ failed_attempts call k ++ [EvSleep RETRY_DELAY]))
      by (exists 1%nat; split; [lia |]; left; exact Htr).
    destruct r as [rc out err | | rc err | ]; try exact Hone.
    all: destruct (attempt + 1 <? retries); [| exact Hone].
    all: destruct (IH (attempt + 1) (time_sleep host RETRY_DELAY w1))
      as (k & Hk & Hshape); [lia |].
    all: simpl trace in Hshape; rewrite Htr, <- !app_assoc in Hshape.
    all: destruct k as [| k].
    all: destruct Hshape as [Hs | [Hk1 Hs]]; try lia.
    all: try (exists 1%nat; split; [lia |]; right; split; [lia |];
              rewrite Hs; reflexivity).
    all: exists (S (S k)); split; [lia |].
    all: rewrite Hs;
      first [left; reflexivity | right; split; [lia | reflexivity]].
Qed.

(** X1: whatever the child processes do and whenever signals arrive,
    [run_command] adds to the trace only attempts at its own command, at
    most [retries] of them, with the fixed delay between any two; one more
    delay may close the run when it was cancelled before the next attempt. *)
Theorem run_command_trace_shape (w : World) :
  exists k,
    (k <= Z.to_nat retries)%nat /\
    (trace (snd (run_command host command capture_output timeout retries
                             check_interruption w))
     = trace w ++ failed_attempts call k \/
     (1 <= k)%nat /\
     trace (snd (run_command host command capture_output timeout retries
                             check_interruption w))
     = trace w ++ failed_attempts call k ++ [EvSleep RETRY_DELAY]).
Proof.
  unfold run_command. apply (loop_shape (Z.to_nat retries) 0 w). lia.
Qed.

(** Counted: at most [retries] child processes. *)
Lemma run_command_runs_bound (w : World) :
  (runs_in (trace (snd (run_command host command capture_output timeout
                                    retries check_interruption w)))
   <= runs_in (trace w) + Z.to_nat retries)%nat.
Proof.
  unfold run_command.
  destruct (loop_shape (Z.to_nat retries) 0 w (ltac:(lia)))
    as (k & Hk & [H | [_ H]]);
    fold loop; rewrite H; unfold runs_in; rewrite !filter_app, !length_app;
    fold (runs_in (failed_attempts call k));
    rewrite runs_in_failed_attempts; simpl; lia.
Qed.

(** The loop never lowers the interruption flag. *)
Lemma loop_keeps_flag (n : nat) :
  forall attempt w,
    retries - attempt <= Z.of_nat n ->
    INTERRUPTED w = true ->
    INTERRUPTED (snd (loop attempt w)) = true.
Proof.
  induction n as [| n IH]; intros attempt w Hleft Hflag.
  all: unfold loop; rewrite run_command_loop_step; fold loop; fold call.
  - rewrite (proj2 (Z.ltb_ge attempt retries)) by lia. exact Hflag.
  - destruct (attempt <? retries); [| exact Hflag].
    destruct (check_interruption && INTERRUPTED w); [exact Hflag |].
    pose proof (subprocess_run_flag host call w) as Hfl.
    rewrite Hflag in Hfl. simpl in Hfl.
    destruct (subprocess_run host call w) as [r w1]. simpl in Hfl.
    destruct r as [rc out err | | rc err | ]; try exact Hfl.
    all: destruct (attempt + 1 <? retries); [| exact Hfl].
    all: apply IH; [lia |]; simpl; rewrite Hfl; reflexivity.
Qed.

Lemma run_command_keeps_flag (w : World) :
  INTERRUPTED w = true ->
  INTERRUPTED (snd (run_command host command capture_output timeout retries
                                check_interruption w)) = true.
Proof.
  unfold run_command. apply (loop_keeps_flag (Z.to_nat retries) 0 w). lia.
Qed.

End LoopShape.

(** ** Verification and the operations built on it *)

Section Composite.

Variable host : Host.

(** X5: [verify_venv] never runs anything but its own probe, and not even
    that when one of the two binaries is missing or is not a regular file:
    then it leaves the world exactly as it found it. *)
Theorem verify_venv_at_most_probe (path : string) (w : World) :
  let python_bin := Py.path_join path ["bin"; "python"] in
  let pip_bin := Py.path_join path ["bin"; "pip"] in
  (os_path_isfile host python_bin w && os_path_isfile host pip_bin w = false ->
   verify_venv host path w = (false, w)) /\
  (trace (snd (verify_venv host path w)) = trace w \/
   trace (snd (verify_venv host path w)) =
   trace w ++ [EvRun (probe_args python_bin)]).
Proof.
  intros python_bin pip_bin. split; [| apply verify_venv_trace].
  unfold verify_venv. fold python_bin pip_bin.
  intros H.
  destruct (os_path_exists host python_bin w),
           (os_path_isfile host python_bin w),
           (os_path_exists host pip_bin w),
           (os_path_isfile host pip_bin w);
    try discriminate H; reflexivity.
Qed.

Lemma verify_venv_runs_bound (path : string) (w : World) :
  (runs_in (trace (snd (verify_venv host path w))) <= runs_in (trace w) + 1)%nat.
Proof.
  destruct (verify_venv_trace host path w) as [H | H]; rewrite H.
  - lia.
  - unfold runs_in. rewrite filter_app, length_app. simpl. lia.
Qed.

Lemma verify_venv_keeps_flag (path : string) (w : World) :
  INTERRUPTED w = true ->
  INTERRUPTED (snd (verify_venv host path w)) = true.
Proof.
  intros Hflag. unfold verify_venv.
  destruct (negb _ || negb _); [exact Hflag |].
  destruct (negb _ || negb _); [exact Hflag |].
  pose proof (subprocess_run_flag host
                (probe_args (Py.path_join path ["bin"; "python"])) w) as Hfl.
  rewrite Hflag in Hfl. simpl in Hfl.
  destruct (subprocess_run host _ w) as [[rc out err | | rc err | ] w1];
    simpl in *; try exact Hfl.
  destruct (negb (rc =? 0)); exact Hfl.
Qed.

(** X6: an installation starts at most four child processes, the probe of
    the verification and the three attempts [MAX_RETRIES] allows; creating
    an environment starts at most [retries] attempts and one probe. *)
Theorem lifecycle_process_bounds
        (venv_path project_path path : string)
        (requirements_file python_version : option string)
        (package_list : option (list string))
        (dev parallel : bool) (timeout retries : Z) (w : World) :
  (runs_in (trace (snd (install_dependencies host venv_path requirements_file
                          package_list dev parallel w)))
   <= runs_in (trace w) + 4)%nat /\
  (runs_in (trace (snd (install_editable host venv_path project_path
                          parallel w)))
   <= runs_in (trace w) + 4)%nat /\
  (runs_in (trace (snd (create_venv host path python_version timeout
                          retries w)))
   <= runs_in (trace w) + Z.to_nat retries + 1)%nat.
Proof.
  split; [| split].
  - unfold install_dependencies.
    pose proof (verify_venv_runs_bound venv_path w) as Hv.
    destruct (verify_venv host venv_path w) as [[|] w1]; simpl in *; [| lia].
    destruct (dependencies_command _ _ _ _ _) as [command |]; simpl; [| lia].
    pose proof (run_command_runs_bound host command false 600 MAX_RETRIES
                  true w1) as Hr.
    destruct (run_command host command false 600 MAX_RETRIES true w1)
      as [[o |] w2]; simpl in *; change (Z.to_nat MAX_RETRIES) with 3%nat in Hr;
      lia.
  - unfold install_editable.
    pose proof (verify_venv_runs_bound venv_path w) as Hv.
    destruct (verify_venv host venv_path w) as [[|] w1]; simpl in *; [| lia].
    match goal with
    | |- context [run_command host ?c false 600 MAX_RETRIES true w1] =>
        pose proof (run_command_runs_bound host c false 600 MAX_RETRIES
                      true w1) as Hr;
        destruct (run_command host c false 600 MAX_RETRIES true w1)
          as [[o |] w2]
    end; simpl in *; change (Z.to_nat MAX_RETRIES) with 3%nat in Hr; lia.
  - unfold create_venv.
    destruct (negb (is_uv_installed host w)); simpl; [lia |].
    set (target := host_abspath host path).
    pose proof (run_command_runs_bound host
                  (venv_command target python_version) false timeout retries
                  true w) as Hr.
    destruct (run_command host (venv_command target python_version) false
                          timeout retries true w) as [[o |] w1];
      simpl in *.
    + pose proof (verify_venv_runs_bound target w1) as Hv.
      destruct (verify_venv host target w1) as [[|] w2]; simpl in *; lia.
    + destruct (os_path_exists host target w1); simpl; [| lia].
      pose proof (verify_venv_runs_bound target w1) as Hv.
      destruct (verify_venv host target w1) as [[|] w2]; simpl in *; lia.
Qed.

(** X7: without a requirements file the [dev] flag changes nothing: the
    package-list command never carries [--dev]. *)
Theorem package_list_ignores_dev
        (venv_path : string) (requirements_file : option string)
        (package_list : option (list string))
        (dev other_dev parallel : bool) (w : World) :
  Py.truthy_str requirements_file = false ->
  install_dependencies host venv_path requirements_file package_list
                       dev parallel w
  = install_dependencies host venv_path requirements_file package_list
                         other_dev parallel w.
Proof.
  intros Hreq. unfold install_dependencies, dependencies_command.
  rewrite Hreq. reflexivity.
Qed.

(** X8: every operation that needs the tool refuses when it is not on the
    search path, and touches nothing: no child process, no sleep, no file. *)
Theorem tool_absent_refusals (path : string)
        (version python_version : option string)
        (timeout retries : Z) (w : World) :
  is_uv_installed host w = false ->
  get_uv_version host w = (None, w) /\
  list_python_versions host w = (false, w) /\
  install_python host version w = (false, w) /\
  create_venv host path python_version timeout retries w = (false, w) /\
  show_uv_info host w = (false, w).
Proof.
  intros H.
  unfold get_uv_version, list_python_versions, install_python, create_venv,
    show_uv_info.
  rewrite H. repeat split.
Qed.

End Composite.

(** ** The tool's own life cycle *)

Section ToolLifecycle.

Variable host : Host.

Let version_call := shell_args "uv --version" true DEFAULT_TIMEOUT.

(** X10: [install_uv] is idempotent.  With the tool already on the search
    path it answers success and the vendor installer is never run: all it
    starts are attempts, at most three, at [uv --version]. *)
Theorem install_uv_when_installed (w : World) :
  is_uv_installed host w = true ->
  fst (install_uv host w) = true /\
  exists k,
    (k <= 3)%nat /\
    (trace (snd (install_uv host w)) =
     trace w ++ failed_attempts version_call k \/
     trace (snd (install_uv host w)) =
     trace w ++ failed_attempts version_call k ++ [EvSleep RETRY_DELAY]).
Proof.
  intros Huv. unfold install_uv, get_uv_version. rewrite Huv. cbn [negb].
  destruct (loop_shape host "uv --version" true DEFAULT_TIMEOUT MAX_RETRIES
              true 3 0 w (ltac:(unfold MAX_RETRIES; lia)))
    as (k & Hk & Hshape).
  unfold run_command.
  destruct (run_command_loop host "uv --version" true DEFAULT_TIMEOUT
                             MAX_RETRIES true 0 w) as [o w1].
  cbn [fst snd] in *. split; [reflexivity |].
  exists k. split; [exact Hk |].
  destruct Hshape as [H | [_ H]]; [left | right]; exact H.
Qed.

(** X11: with the tool absent, [install_uv] answers success exactly when the
    installer command succeeds and the tool is on the search path
    afterwards; an installer that ran well but left the tool out of reach
    is a failure. *)
Theorem install_uv_verdict (w : World) :
  is_uv_installed host w = false ->
  let r := run_command host INSTALLER false DEFAULT_TIMEOUT MAX_RETRIES
                       true w in
  fst (install_uv host w) = true <->
  fst r <> None /\ is_uv_installed host (snd r) = true.
Proof.
  intros Huv r. unfold install_uv. rewrite Huv. fold r.
  destruct r as [[o |] w1]; cbn [fst snd].
  - destruct (is_uv_installed host w1); cbn [negb].
    + destruct (get_uv_version host w1) as [v w2]. cbn [fst].
      split; [intros _; split; [discriminate | reflexivity] | reflexivity].
    + cbn [fst]. split; [discriminate | intros [_ H]; discriminate H].
  - cbn [fst]. split; [discriminate | intros [H _]; contradiction H; reflexivity].
Qed.

(** X12: with the tool present, [update_uv] answers success exactly when
    the installer command succeeds; whether the version changed plays no
    part. *)
Theorem update_uv_verdict (w : World) :
  is_uv_installed host w = true ->
  let w1 := snd (get_uv_version host w) in
  fst (update_uv host w) = true <->
  fst (run_command host INSTALLER false DEFAULT_TIMEOUT MAX_RETRIES true w1)
  <> None.
Proof.
  intros Huv w1. unfold update_uv. rewrite Huv. cbn [negb].
  subst w1. destruct (get_uv_version host w) as [v w1]. cbn [snd].
  destruct (run_command host INSTALLER false DEFAULT_TIMEOUT MAX_RETRIES
                        true w1) as [[o |] w2]; cbn [fst].
  - destruct (get_uv_version host w2) as [v' w3]. cbn [fst].
    split; [discriminate | reflexivity].
  - split; [discriminate | intros H; contradiction H; reflexivity].
Qed.

(** X13: with the tool present, [install_python] answers success exactly
    when the install command succeeds; the check that follows is run but
    its result never changes the answer. *)
Theorem install_python_verdict (version : option string) (w : World) :
  is_uv_installed host w = true ->
  let command :=
    if Py.truthy_str version
    then ("uv python install " ++ Py.format version)%string
    else "uv python install" in
  fst (install_python host version w) = true <->
  fst (run_command host command false DEFAULT_TIMEOUT MAX_RETRIES true w)
  <> None.
Proof.
  intros Huv command. unfold install_python. rewrite Huv. cbn [negb].
  fold command.
  destruct (run_command host command false DEFAULT_TIMEOUT MAX_RETRIES
                        true w) as [[o |] w1]; cbn [fst].
  - destruct (run_command host _ true DEFAULT_TIMEOUT MAX_RETRIES true w1)
      as [v w2]. cbn [fst].
    split; [discriminate | reflexivity].
  - split; [discriminate | intros H; contradiction H; reflexivity].
Qed.

(** X14: with the tool present, [list_python_versions] and [show_uv_info]
    answer success whatever becomes of the commands they run. *)
Theorem listing_never_fails (w : World) :
  is_uv_installed host w = true ->
  fst (list_python_versions host w) = true /\
  fst (show_uv_info host w) = true.
Proof.
  intros Huv. unfold list_python_versions, show_uv_info. rewrite Huv.
  cbn [negb]. split.
  - destruct (run_command host _ false DEFAULT_TIMEOUT MAX_RETRIES true w)
      as [o w1]. reflexivity.
  - destruct (get_uv_version host w) as [v w1].
    destruct (run_command host _ false DEFAULT_TIMEOUT MAX_RETRIES true w1)
      as [o w2].
    destruct (get_directory_size host (CACHE_DIR host) w2) as [size w3].
    reflexivity.
Qed.

(** X4: nothing the program does lowers the interruption flag: once set,
    it is still set after a command, a verification, the creation of an
    environment or an installation. *)
Theorem interruption_is_never_cleared
        (command venv_path project_path path : string)
        (capture_output check_interruption dev parallel : bool)
        (requirements_file python_version : option string)
        (package_list : option (list string))
        (timeout retries : Z) (w : World) :
  INTERRUPTED w = true ->
  INTERRUPTED (snd (run_command host command capture_output timeout retries
                                check_interruption w)) = true /\
  INTERRUPTED (snd (verify_venv host venv_path w)) = true /\
  INTERRUPTED (snd (create_venv host path python_version timeout retries w))
  = true /\
  INTERRUPTED (snd (install_dependencies host venv_path requirements_file
                      package_list dev parallel w)) = true /\
  INTERRUPTED (snd (install_editable host venv_path project_path parallel w))
  = true.
Proof.
  intros Hflag. repeat split.
  - apply run_command_keeps_flag. exact Hflag.
  - apply verify_venv_keeps_flag. exact Hflag.
  - unfold create_venv.
    destruct (negb (is_uv_installed host w)); [exact Hflag |].
    set (target := host_abspath host path).
    pose proof (run_command_keeps_flag host
                  (venv_command target python_version) false timeout retries
                  true w Hflag) as Hr.
    destruct (run_command host (venv_command target python_version) false
                          timeout retries true w) as [[o |] w1];
      cbn [snd] in Hr.
    + pose proof (verify_venv_keeps_flag host target w1 Hr) as Hv.
      destruct (verify_venv host target w1) as [[|] w2]; exact Hv.
    + destruct (os_path_exists host target w1); [| exact Hr].
      pose proof (verify_venv_keeps_flag host target w1 Hr) as Hv.
      destruct (verify_venv host target w1) as [[|] w2]; exact Hv.
  - unfold install_dependencies.
    pose proof (verify_venv_keeps_flag host venv_path w Hflag) as Hv.
    destruct (verify_venv host venv_path w) as [[|] w1]; cbn [snd negb] in *;
      [| exact Hv].
    destruct (dependencies_command _ _ _ _ _) as [c |]; [| exact Hv].
    pose proof (run_command_keeps_flag host c false 600 MAX_RETRIES true w1 Hv)
      as Hr.
    destruct (run_command host c false 600 MAX_RETRIES true w1)
      as [[o |] w2]; exact Hr.
  - unfold install_editable.
    pose proof (verify_venv_keeps_flag host venv_path w Hflag) as Hv.
    destruct (verify_venv host venv_path w) as [[|] w1]; cbn [snd negb] in *;
      [| exact Hv].
    match goal with
    | |- context [run_command host ?c false 600 MAX_RETRIES true w1] =>
        pose proof (run_command_keeps_flag host c false 600 MAX_RETRIES
                      true w1 Hv) as Hr;
        destruct (run_command host c false 600 MAX_RETRIES true w1)
          as [[o |] w2]
    end; exact Hr.
Qed.

End ToolLifecycle.

(** ** More on the cache *)

Section CacheEvents.

Variable host : Host.
Variable cutoff : Z.




End CacheEvents.

Section CacheModes.

Variable host : Host.



(** X18: the age-bounded cleaning leaves alone whatever lies outside the
    cache root: a path that parts from the root's path at some component
    names after the cleaning what it named before. *)
Theorem clean_cache_age_bounded_frame (older_than_days : Z) (w : World)
        (es : list (string * node))
        (common : list string) (a b : string) (p q : list string) :
  older_than_days <> 0 ->
  FS.lookup (resolve host (CACHE_DIR host)) (fs w) = Some (Dir es) ->
  Tree.well_formed (Dir es) = true ->
  resolve host (CACHE_DIR host) = common ++ b :: q ->
  a <> b ->
  FS.lookup (common ++ a :: p)
            (fs (snd (clean_cache host (Some older_than_days) w)))
  = FS.lookup (common ++ a :: p) (fs w).
Proof.
  intros Hd Hlook Hwf Hq Hab.
  destruct (clean_cache_age_bounded host older_than_days w es Hd Hlook Hwf)
    as [_ Hfs].
  rewrite Hfs, Hq.
  apply lookup_alter_apart.
  apply String.eqb_neq. congruence.
Qed.

(** A tree that goes entirely held only files that may be unlinked. *)
Lemma rmtree_gone_removable (n : node) :
  FS.rmtree_node n = None -> Tree.removable_tree n = true.
Proof.
  induction n as [m ct rm | es IH] using node_induction.
  - simpl. destruct rm; [reflexivity | discriminate].
  - rewrite rmtree_node_dir.
    destruct (FS.rmtree_entries es) eqn:Hes; [| discriminate].
    intros _. revert Hes.
    induction es as [| [k v] es IHes]; [reflexivity |].
    inversion IH as [| e l Hhere Hthere]; subst e l. simpl in Hhere.
    cbn [FS.rmtree_entries].
    destruct (FS.rmtree_node v) eqn:Hv; [discriminate |].
    intros Hrest. rewrite removable_tree_cons, (Hhere eq_refl).
    exact (IHes Hthere Hrest).
Qed.

(** X21: the full wipe stops at the first file it cannot unlink:
    [clean_cache] answers failure, nothing is recreated ([os.makedirs] is
    never called), and the cache root is still there with what could not be
    removed. *)
Theorem clean_cache_full_wipe_blocked (older_than_days : option Z)
        (w : World) (es : list (string * node)) :
  Py.truthy_int older_than_days = false ->
  FS.lookup (resolve host (CACHE_DIR host)) (fs w) = Some (Dir es) ->
  Tree.removable_tree (Dir es) = false ->
  let r := clean_cache host older_than_days w in
  fst r = false /\
  trace (snd r) =
  trace w ++ [EvWalk (CACHE_DIR host); EvRmtree (CACHE_DIR host) false] /\
  exists left_over,
    FS.lookup (resolve host (CACHE_DIR host)) (fs (snd r))
    = Some (Dir left_over).
Proof.
  intros Hmode Hlook Hrm r. subst r.
  assert (Hstuck : FS.rmtree_entries es <> []).
  { intros Hnil.
    assert (Hgone : FS.rmtree_node (Dir es) = None)
      by (rewrite rmtree_node_dir, Hnil; reflexivity).
    rewrite (rmtree_gone_removable _ Hgone) in Hrm. discriminate. }
  unfold clean_cache, os_path_exists. rewrite Hlook. cbn [negb].
  pose proof (get_directory_size_world host (CACHE_DIR host) w) as Hw1.
  destruct (get_directory_size host (CACHE_DIR host) w) as [before w1].
  simpl in Hw1. subst w1. rewrite Hmode.
  unfold shutil_rmtree. cbn [fs record]. rewrite Hlook.
  destruct (resolve host (CACHE_DIR host)) as [| c q] eqn:Hq.
  - cbn [negb fst snd record trace fs]. rewrite <- app_assoc.
    repeat split. exists es. exact Hlook.
  - destruct (FS.rmtree_entries es) as [| e rest];
      [contradiction Hstuck; reflexivity |].
    cbn [negb fst snd record trace fs set_fs]. rewrite <- app_assoc.
    repeat split. eexists.
    apply (lookup_alter (c :: q) (fs w) _ _ Hlook).
Qed.

End CacheModes.

(** ** Measuring a directory *)

Lemma tree_size_dir (es : list (string * node)) :
  tree_size (Dir es) = entries_size es.
Proof.
  simpl. induction es as [| [k v] es IH]; simpl; [| rewrite IH]; reflexivity.
Qed.

Lemma entries_size_split (es : list (string * node)) :
  entries_size es =
  entries_size (filter (fun e => negb (FS.is_dir (snd e))) es) +
  entries_size (filter (fun e => FS.is_dir (snd e)) es).
Proof.
  induction es as [| [k v] es IH]; [reflexivity |].
  cbn [filter snd entries_size].
  destruct (FS.is_dir v); cbn [negb entries_size]; lia.
Qed.

Section Sizes.

Variable host : Host.
Variable w : World.

(** The two loop bodies of [get_directory_size], reading the world [w]. *)
Let add_file (dirpath : string) :=
  fun (total : Z) (f : string) =>
    let fp := Py.path_join dirpath [f] in
    if os_path_exists host fp w then total + os_path_getsize host fp w
    else total.

Let add_dir : Z -> string * list string * list string -> Z :=
  fun (total : Z) '(dirpath, _, filenames) =>
    fold_left
      (fun (total : Z) (f : string) =>
         let fp := Py.path_join dirpath [f] in
         if os_path_exists host fp w then total + os_path_getsize host fp w
         else total)
      (filenames : list string) total.

Let sized (D : node) : Prop :=
  Tree.well_formed D = true ->
  forall (dirpath : string) (total : Z),
    FS.lookup (resolve host dirpath) (fs w) = Some D ->
    fold_left add_dir (FS.walk dirpath D) total =
    total + (if FS.is_dir D then tree_size D else 0).

Lemma files_sized (dirpath : string) (suf : list (string * node)) :
  forall (pre : list (string * node)) (total : Z),
    Tree.well_formed_entries suf = true ->
    apart pre suf ->
    FS.lookup (resolve host dirpath) (fs w) = Some (Dir (pre ++ suf)) ->
    fold_left (add_file dirpath) (FS.filenames suf) total =
    total + entries_size (filter (fun e => negb (FS.is_dir (snd e))) suf).
Proof.
  induction suf as [| [k v] suf IH]; intros pre total Hwf Hap Hlook.
  - simpl. lia.
  - apply well_formed_cons in Hwf as (Hk & Hfr & Hv & Hrest).
    pose proof (apart_head pre suf k v Hap) as Hpre.
    assert (Hnext : forall t,
               fold_left (add_file dirpath) (FS.filenames suf) t =
               t + entries_size
                     (filter (fun e => negb (FS.is_dir (snd e))) suf)).
    { intros t. apply (IH (pre ++ [(k, v)]) t Hrest).
      - apply (apart_step pre suf k v v Hap Hfr).
      - rewrite <- app_assoc. exact Hlook. }
    destruct v as [m ct rm | ces].
    + change (FS.filenames ((k, File m ct rm) :: suf))
        with (k :: FS.filenames suf).
      cbn [fold_left filter snd FS.is_dir negb entries_size tree_size].
      rewrite Hnext.
      unfold add_file, os_path_exists, os_path_getsize.
      rewrite (resolve_join host dirpath k Hk), lookup_app, Hlook.
      cbn [FS.lookup]. rewrite (assoc_app_fresh k pre _ Hpre).
      cbn [FS.assoc]. rewrite String.eqb_refl. lia.
    + change (FS.filenames ((k, Dir ces) :: suf)) with (FS.filenames suf).
      cbn [filter snd FS.is_dir negb]. apply Hnext.
Qed.

Lemma dirs_sized (dirpath : string) (suf : list (string * node)) :
  Forall (fun e => sized (snd e)) suf ->
  forall (pre : list (string * node)) (total : Z),
    Tree.well_formed_entries suf = true ->
    apart pre suf ->
    FS.lookup (resolve host dirpath) (fs w) = Some (Dir (pre ++ suf)) ->
    fold_left add_dir
      (flat_map (fun e => FS.walk (Py.path_join dirpath [fst e]) (snd e)) suf)
      total =
    total + entries_size (filter (fun e => FS.is_dir (snd e)) suf).
Proof.
  induction suf as [| [k v] suf IH]; intros Hall pre total Hwf Hap Hlook.
  - simpl. lia.
  - apply well_formed_cons in Hwf as (Hk & Hfr & Hv & Hrest).
    pose proof (apart_head pre suf k v Hap) as Hpre.
    inversion Hall as [| e l Hhere Hthere]; subst e l. simpl in Hhere.
    assert (Hnext : forall t,
               fold_left add_dir
                 (flat_map
                    (fun e => FS.walk (Py.path_join dirpath [fst e]) (snd e))
                    suf) t =
               t + entries_size (filter (fun e => FS.is_dir (snd e)) suf)).
    { intros t. apply (IH Hthere (pre ++ [(k, v)]) t Hrest).
      - apply (apart_step pre suf k v v Hap Hfr).
      - rewrite <- app_assoc. exact Hlook. }
    cbn [flat_map fst snd]. rewrite fold_left_app, Hnext.
    destruct v as [m ct rm | ces].
    + cbn [FS.walk fold_left filter snd FS.is_dir]. reflexivity.
    + cbn [filter snd FS.is_dir entries_size].
      rewrite (Hhere Hv (Py.path_join dirpath [k]) total);
        [cbn [FS.is_dir]; lia |].
      rewrite (resolve_join host dirpath k Hk), lookup_app, Hlook.
      cbn [FS.lookup]. rewrite (assoc_app_fresh k pre _ Hpre).
      cbn [FS.assoc]. rewrite String.eqb_refl. reflexivity.
Qed.

Lemma walk_sized (D : node) : sized D.
Proof.
  induction D as [m ct rm | es IH] using node_induction;
    intros Hwf dirpath total Hlook.
  - simpl. lia.
  - rewrite well_formed_dir in Hwf. cbn [FS.is_dir]. rewrite tree_size_dir.
    cbn [FS.walk fold_left].
    rewrite (dirs_sized dirpath es IH [] _ Hwf (apart_nil es) Hlook).
    change (add_dir total (dirpath, FS.dirnames es, FS.filenames es))
      with (fold_left (add_file dirpath) (FS.filenames es) total).
    rewrite (files_sized dirpath es [] total Hwf (apart_nil es) Hlook).
    rewrite (entries_size_split es). lia.
Qed.

End Sizes.

(** Measuring a well-formed directory. *)
Lemma get_directory_size_dir (host : Host) (path : string) (w : World)
      (es : list (string * node)) :
  FS.lookup (resolve host path) (fs w) = Some (Dir es) ->
  Tree.well_formed (Dir es) = true ->
  fst (get_directory_size host path w) = tree_size (Dir es).
Proof.
  intros Hlook Hwf. unfold get_directory_size, os_walk. rewrite Hlook.
  cbn [fst].
  apply (walk_sized host (record (EvWalk path) w) (Dir es) Hwf path 0 Hlook).
Qed.

(** X15: [get_directory_size] of a well-formed directory is the number of
    bytes in all the regular files below it, at any depth; of a path that
    names nothing, or names a regular file, it is zero.  Measuring changes
    nothing in the file system. *)
Theorem get_directory_size_total (host : Host) (path : string) (w : World) :
  fs (snd (get_directory_size host path w)) = fs w /\
  (FS.lookup (resolve host path) (fs w) = None ->
   fst (get_directory_size host path w) = 0) /\
  (forall mtime content removable,
      FS.lookup (resolve host path) (fs w)
      = Some (File mtime content removable) ->
      fst (get_directory_size host path w) = 0) /\
  (forall es,
      FS.lookup (resolve host path) (fs w) = Some (Dir es) ->
      Tree.well_formed (Dir es) = true ->
      fst (get_directory_size host path w) = tree_size (Dir es)).
Proof.
  split; [reflexivity |]. split; [| split].
  - intros Hnone. unfold get_directory_size, os_walk. rewrite Hnone.
    reflexivity.
  - intros m ct rm Hfile. unfold get_directory_size, os_walk. rewrite Hfile.
    reflexivity.
  - apply get_directory_size_dir.
Qed.

(** ** The full wipe, seen from outside the cache *)

Lemma assoc_app_other (a c : string) (v : node) (es : list (string * node)) :
  (c =? a)%string = false ->
  FS.assoc a (es ++ [(c, v)]) = FS.assoc a es.
Proof.
  intros Hne. induction es as [| [k x] es IH]; simpl.
  - rewrite Hne. reflexivity.
  - destruct (k =? a)%string; [reflexivity | exact IH].
Qed.

Section FullWipeFrame.

Variable host : Host.

(** After a full wipe that went through, the directory holding the cache
    root lists what it listed, except that the root is now its last entry
    and holds one empty [downloads]. *)
Lemma clean_cache_full_wipe_fs (older_than_days : option Z) (w : World)
      (es : list (string * node)) :
  Py.truthy_int older_than_days = false ->
  Tree.well_formed (fs w) = true ->
  resolve host (CACHE_DIR host) <> [] ->
  FS.lookup (resolve host (CACHE_DIR host)) (fs w) = Some (Dir es) ->
  Tree.removable_tree (Dir es) = true ->
  exists q0 c pes,
    resolve host (CACHE_DIR host) = q0 ++ [c] /\
    FS.lookup q0 (fs w) = Some (Dir pes) /\
    fs (snd (clean_cache host older_than_days w)) =
    FS.alter q0
      (fun _ => Some (Dir (FS.set_entry c None pes
                             ++ [(c, Dir [("downloads", Dir [])])])))
      (fs w).
Proof.
  intros Hmode Hwf Hq Hlook Hrm.
  remember (resolve host (CACHE_DIR host)) as q eqn:Eq.
  destruct (exists_last Hq) as (q0 & c & Hq0).
  assert (Hparent : exists pes,
             FS.lookup q0 (fs w) = Some (Dir pes) /\
             FS.assoc c pes = Some (Dir es)).
  { rewrite Hq0, lookup_app in Hlook.
    destruct (FS.lookup q0 (fs w)) as [[m ct rm | pes] |];
      try discriminate.
    exists pes. split; [reflexivity |].
    simpl in Hlook. destruct (FS.assoc c pes); congruence. }
  destruct Hparent as (pes & Hp & Hc).
  exists q0, c, pes. split; [exact Hq0 |]. split; [exact Hp |].
  assert (Hpwf : Tree.well_formed_entries pes = true).
  { rewrite <- well_formed_dir.
    exact (lookup_well_formed q0 (fs w) (Dir pes) Hwf Hp). }
  pose proof (fresh_set_entry_none c pes Hpwf) as Hfresh.
  set (pes' := FS.set_entry c None pes) in *.
  remember (FS.alter q (fun _ => None) (fs w)) as n2 eqn:En2.
  assert (Hn2 : n2 = FS.alter q0 (fun _ => Some (Dir pes')) (fs w)).
  { rewrite En2, Hq0.
    rewrite (alter_app q0 [c] _ (fs w) (Dir pes) (ltac:(discriminate)) Hp).
    reflexivity. }
  assert (Hp2 : FS.lookup q0 n2 = Some (Dir pes'))
    by (rewrite Hn2; apply (lookup_alter q0 (fs w) _ _ Hp)).
  pose proof (mkdirs_new_child c q0 n2 _ Hp2 Hfresh) as Hmk1.
  rewrite <- Hq0 in Hmk1.
  remember (FS.alter q0 (fun _ => Some (Dir (pes' ++ [(c, Dir [])]))) n2)
    as n3 eqn:En3.
  assert (Hp3 : FS.lookup q0 n3 = Some (Dir (pes' ++ [(c, Dir [])])))
    by (rewrite En3; apply (lookup_alter q0 n2 _ _ Hp2)).
  assert (Hl3 : FS.lookup q n3 = Some (Dir [])).
  { rewrite Hq0, lookup_app, Hp3. simpl.
    rewrite (assoc_app_fresh c _ _ Hfresh).
    simpl. rewrite String.eqb_refl. reflexivity. }
  assert (Hdl : resolve host (DOWNLOAD_CACHE host) = q ++ ["downloads"])
    by (rewrite Eq; apply resolve_join; reflexivity).
  pose proof (mkdirs_new_child "downloads" q n3 [] Hl3 eq_refl) as Hmk2.
  rewrite <- Hdl in Hmk2.
  (* the last file system, written from the parent directory *)
  assert (Hlast : FS.alter q (fun _ => Some (Dir ([] ++ [("downloads", Dir [])])))
                           n3 =
                  FS.alter q0
                    (fun _ => Some (Dir (pes' ++ [(c, Dir [("downloads", Dir [])])])))
                    (fs w)).
  { rewrite Hq0.
    rewrite (alter_app q0 [c] _ n3 _ (ltac:(discriminate)) Hp3).
    cbn [FS.alter].
    rewrite (set_entry_app_fresh c _ pes' (Dir []) [] Hfresh).
    rewrite En3, (alter_alter q0 n2 _ _ _ Hp2).
    rewrite Hn2. apply (alter_alter q0 (fs w) _ _ _ Hp). }
  (* running the code *)
  unfold clean_cache, os_path_exists. rewrite <- Eq, Hlook. cbn [negb].
  pose proof (get_directory_size_world host (CACHE_DIR host) w) as Hw1.
  destruct (get_directory_size host (CACHE_DIR host) w) as [before w1].
  simpl in Hw1. subst w1. rewrite Hmode.
  unfold shutil_rmtree. cbn [fs record]. rewrite <- Eq, Hlook.
  rewrite (rmtree_entries_removable es Hrm).
  destruct q as [| c0 q']; [contradiction Hq; reflexivity |].
  rewrite <- En2. cbn [negb].
  unfold os_makedirs at 1. cbn [fs record set_fs]. rewrite <- Eq, Hmk1.
  cbn [negb].
  unfold os_makedirs. cbn [fs record set_fs]. rewrite Hmk2.
  cbn [negb].
  match goal with
  | |- context [get_directory_size host (CACHE_DIR host) ?x] =>
      pose proof (get_directory_size_world host (CACHE_DIR host) x) as Hw5;
      destruct (get_directory_size host (CACHE_DIR host) x) as [after w5]
  end.
  simpl in Hw5. subst w5.
  cbn [snd fs record set_fs]. exact Hlast.
Qed.

(** X22: a full wipe that goes through leaves alone whatever lies outside
    the cache root: a path that parts from the root's path at some
    component names afterwards what it named before. *)
Theorem clean_cache_full_wipe_frame (older_than_days : option Z) (w : World)
        (es : list (string * node))
        (common : list string) (a b : string) (p q : list string) :
  Py.truthy_int older_than_days = false ->
  Tree.well_formed (fs w) = true ->
  FS.lookup (resolve host (CACHE_DIR host)) (fs w) = Some (Dir es) ->
  Tree.removable_tree (Dir es) = true ->
  resolve host (CACHE_DIR host) = common ++ b :: q ->
  a <> b ->
  FS.lookup (common ++ a :: p) (fs (snd (clean_cache host older_than_days w)))
  = FS.lookup (common ++ a :: p) (fs w).
Proof.
  intros Hmode Hwf Hlook Hrm Hq Hab.
  assert (Hne : resolve host (CACHE_DIR host) <> [])
    by (rewrite Hq; destruct common; discriminate).
  destruct (clean_cache_full_wipe_fs older_than_days w es Hmode Hwf Hne
              Hlook Hrm) as (q0 & c & pes & Hq0 & Hp & Hfs).
  rewrite Hfs.
  assert (Hba : (b =? a)%string = false)
    by (apply String.eqb_neq; congruence).
  rewrite Hq in Hq0.
  destruct (exists_last (l := b :: q) (ltac:(discriminate)))
    as (init & lastc & Hsplit).
  rewrite Hsplit, app_assoc in Hq0.
  apply app_inj_tail in Hq0 as [Hq0 Hc]. subst q0 lastc.
  destruct init as [| b' init].
  - (* the path parts from the root at its last component: a sibling *)
    simpl in Hsplit. injection Hsplit as Hb Hq'. subst c.
    rewrite app_nil_r in *.
    rewrite !lookup_app, Hp.
    rewrite (lookup_alter common (fs w) _ _ Hp).
    cbn [FS.lookup].
    rewrite (assoc_app_other a b _ _ Hba).
    rewrite (assoc_set_entry_other b a None pes Hba). reflexivity.
  - (* the path parts from the root higher up *)
    simpl in Hsplit. injection Hsplit as Hb Hq'. subst b'.
    apply lookup_alter_apart. exact Hba.
Qed.

End FullWipeFrame.

(** ** Cleaning, then measuring *)

Lemma tree_size_nonneg (n : node) : 0 <= tree_size n.
Proof.
  induction n as [m ct rm | es IH] using node_induction.
  - simpl. lia.
  - rewrite tree_size_dir.
    induction es as [| [k v] es IHes]; [simpl; lia |].
    inversion IH as [| e l Hhere Hthere]; subst e l. simpl in Hhere.
    cbn [entries_size]. specialize (IHes Hthere). lia.
Qed.

Lemma prune_size_le (cutoff : Z) (n : node) :
  tree_size (Tree.prune cutoff n) <= tree_size n.
Proof.
  induction n as [m ct rm | es IH] using node_induction.
  - simpl. lia.
  - rewrite prune_dir, !tree_size_dir.
    induction es as [| [k v] es IHes]; [simpl; lia |].
    inversion IH as [| e l Hhere Hthere]; subst e l. simpl in Hhere.
    specialize (IHes Hthere).
    cbn [Tree.prune_entries entries_size].
    pose proof (tree_size_nonneg v).
    destruct (Tree.stale cutoff v); cbn [entries_size]; lia.
Qed.

Lemma well_formed_prune (cutoff : Z) (n : node) :
  Tree.well_formed n = true -> Tree.well_formed (Tree.prune cutoff n) = true.
Proof.
  induction n as [m ct rm | es IH] using node_induction; [trivial |].
  rewrite prune_dir, !well_formed_dir.
  induction es as [| [k v] es IHes]; [reflexivity |].
  inversion IH as [| e l Hhere Hthere]; subst e l. simpl in Hhere.
  intros Hwf. apply well_formed_cons in Hwf as (Hk & Hfr & Hv & Hrest).
  specialize (IHes Hthere Hrest).
  cbn [Tree.prune_entries].
  destruct (Tree.stale cutoff v); [exact IHes |].
  cbn [Tree.well_formed_entries].
  rewrite Hk, (fresh_prune_entries cutoff k es Hfr), (Hhere Hv), IHes.
  reflexivity.
Qed.

Section CleanThenMeasure.

Variable host : Host.

(** X19: after an age-bounded cleaning the cache measures no more than it
    did before: the space the program reports as freed is never negative. *)
Theorem clean_cache_never_grows (older_than_days : Z) (w : World)
        (es : list (string * node)) :
  older_than_days <> 0 ->
  FS.lookup (resolve host (CACHE_DIR host)) (fs w) = Some (Dir es) ->
  Tree.well_formed (Dir es) = true ->
  fst (get_directory_size host (CACHE_DIR host)
         (snd (clean_cache host (Some older_than_days) w)))
  <= fst (get_directory_size host (CACHE_DIR host) w).
Proof.
  intros Hd Hlook Hwf.
  destruct (clean_cache_age_bounded host older_than_days w es Hd Hlook Hwf)
    as [_ Hfs].
  set (cutoff := clock w - older_than_days * 24 * 60 * 60) in *.
  set (w' := snd (clean_cache host (Some older_than_days) w)) in *.
  assert (Hafter : FS.lookup (resolve host (CACHE_DIR host)) (fs w')
                   = Some (Tree.prune cutoff (Dir es)))
    by (rewrite Hfs; apply (lookup_alter _ (fs w) _ _ Hlook)).
  rewrite (get_directory_size_dir host (CACHE_DIR host) w es Hlook Hwf).
  pose proof (well_formed_prune cutoff (Dir es) Hwf) as Hwf'.
  rewrite prune_dir in Hafter, Hwf'.
  rewrite (get_directory_size_dir host (CACHE_DIR host) w' _ Hafter Hwf').
  rewrite <- prune_dir.
  apply prune_size_le.
Qed.

(** X20: a full wipe that goes through answers success and leaves the
    cache root holding one empty [downloads] directory, so that the cache
    then measures zero bytes. *)
Theorem clean_cache_full_wipe_empties (older_than_days : option Z)
        (w : World) (es : list (string * node)) :
  Py.truthy_int older_than_days = false ->
  Tree.well_formed (fs w) = true ->
  resolve host (CACHE_DIR host) <> [] ->
  FS.lookup (resolve host (CACHE_DIR host)) (fs w) = Some (Dir es) ->
  Tree.removable_tree (Dir es) = true ->
  let r := clean_cache host older_than_days w in
  fst r = true /\
  FS.lookup (resolve host (CACHE_DIR host)) (fs (snd r))
  = Some (Dir [("downloads", Dir [])]) /\
  fst (get_directory_size host (CACHE_DIR host) (snd r)) = 0.
Proof.
  intros Hmode Hwf Hq Hlook Hrm r.
  destruct (clean_cache_full_wipe host older_than_days w es Hmode Hwf Hq
              Hlook Hrm) as [Hok Hafter].
  fold r in Hok, Hafter.
  split; [exact Hok |]. split; [exact Hafter |].
  rewrite (get_directory_size_dir host (CACHE_DIR host) (snd r) _ Hafter
             eq_refl).
  reflexivity.
Qed.

End CleanThenMeasure.

(** ** Captured output *)

Lemma lstrip_idempotent (s : string) : Py.lstrip (Py.lstrip s) = Py.lstrip s.
Proof.
  induction s as [| c s IH]; [reflexivity |].
  cbn [Py.lstrip]. destruct (Py.is_space c) eqn:Hc; [exact IH |].
  cbn [Py.lstrip]. rewrite Hc. reflexivity.
Qed.

Lemma rstrip_idempotent (s : string) : Py.rstrip (Py.rstrip s) = Py.rstrip s.
Proof.
  induction s as [| c s IH]; [reflexivity |].
  cbn [Py.rstrip]. destruct (Py.rstrip s) as [| d x] eqn:Hx.
  - destruct (Py.is_space c) eqn:Hc; [reflexivity |].
    cbn [Py.rstrip]. rewrite Hc. reflexivity.
  - change (Py.rstrip (String c (String d x)))
      with (match Py.rstrip (String d x) with
            | EmptyString =>
                if Py.is_space c then EmptyString else String c EmptyString
            | r => String c r
            end).
    rewrite IH. reflexivity.
Qed.

(** Stripping on the left keeps a string stripped on the right. *)
Lemma rstrip_lstrip (s : string) :
  Py.rstrip s = s -> Py.rstrip (Py.lstrip s) = Py.lstrip s.
Proof.
  induction s as [| c s IH]; [reflexivity |].
  intros Hr. cbn [Py.lstrip]. destruct (Py.is_space c) eqn:Hc; [| exact Hr].
  apply IH. cbn [Py.rstrip] in Hr.
  destruct (Py.rstrip s) as [| d x].
  - rewrite Hc in Hr. discriminate.
  - injection Hr as Hr. exact Hr.
Qed.

(** [str.strip()] leaves nothing to strip on either side. *)
Lemma strip_trimmed (s : string) :
  Py.lstrip (Py.strip s) = Py.strip s /\ Py.rstrip (Py.strip s) = Py.strip s.
Proof.
  unfold Py.strip. split.
  - apply lstrip_idempotent.
  - apply rstrip_lstrip. apply rstrip_idempotent.
Qed.

Section Captured.

Variable host : Host.
Variables (command : string) (capture_output : bool) (timeout retries : Z).
Variable check_interruption : bool.

Lemma loop_outcome (n : nat) :
  forall attempt w o,
    retries - attempt <= Z.of_nat n ->
    fst (run_command_loop host command capture_output timeout retries
                          check_interruption attempt w) = Some o ->
    if capture_output then exists out, o = Stdout (Py.strip out)
    else o = PyTrue.
Proof.
  induction n as [| n IH]; intros attempt w o Hleft.
  all: rewrite run_command_loop_step.
  - rewrite (proj2 (Z.ltb_ge attempt retries)) by lia. discriminate.
  - destruct (attempt <? retries); [| discriminate].
    destruct (check_interruption && INTERRUPTED w); [discriminate |].
    destruct (subprocess_run host _ w) as [r w1].
    destruct r as [rc out err | | rc err | ]; try discriminate.
    + simpl. intros [= <-]. destruct capture_output; [eexists |]; reflexivity.
    + destruct (attempt + 1 <? retries); [| discriminate].
      apply IH. lia.
    + destruct (attempt + 1 <? retries); [| discriminate].
      apply IH. lia.
Qed.

(** X3: what [run_command] returns on success tells the mode: in streamed
    mode it is [True]; in captured mode it is text with no white space left
    at either end. *)
Theorem run_command_outcome (w : World) (o : outcome) :
  fst (run_command host command capture_output timeout retries
                   check_interruption w) = Some o ->
  if capture_output
  then exists s, o = Stdout s /\ Py.lstrip s = s /\ Py.rstrip s = s
  else o = PyTrue.
Proof.
  intros H. unfold run_command in H.
  pose proof (loop_outcome (Z.to_nat retries) 0 w o (ltac:(lia)) H) as Ho.
  destruct capture_output; [| exact Ho].
  destruct Ho as [out ->]. exists (Py.strip out).
  split; [reflexivity | apply strip_trimmed].
Qed.

End Captured.

(** X9: the version [get_uv_version] reports, when it reports one, is text
    with no white space at either end: the newline that ends the tool's
    answer is gone. *)
Theorem get_uv_version_trimmed (host : Host) (w : World) (o : outcome) :
  fst (get_uv_version host w) = Some o ->
  exists s, o = Stdout s /\ Py.lstrip s = s /\ Py.rstrip s = s.
Proof.
  unfold get_uv_version.
  destruct (negb (is_uv_installed host w)); [discriminate |].
  intros H. unfold run_command in H.
  destruct (loop_outcome host "uv --version" true DEFAULT_TIMEOUT MAX_RETRIES
              true 3 0 w o (ltac:(unfold MAX_RETRIES; lia)) H) as [out ->].
  exists (Py.strip out). split; [reflexivity | apply strip_trimmed].
Qed.

(** ** The properties at work on the sample machines *)

Lemma verify_venv_at_most_probe_witness :
  verify_venv Sample.working "/nowhere" (Sample.start Sample.root)
  = (false, Sample.start Sample.root).
Proof.
  destruct (verify_venv_at_most_probe Sample.working "/nowhere"
              (Sample.start Sample.root)) as [H _].
  apply H. reflexivity.
Defined.

Lemma package_list_ignores_dev_witness :
  install_dependencies Sample.working "/venv" None (Some ["requests"])
                       true true (Sample.start Sample.root)
  = install_dependencies Sample.working "/venv" None (Some ["requests"])
                         false true (Sample.start Sample.root).
Proof.
  apply (package_list_ignores_dev Sample.working "/venv" None
           (Some ["requests"]) true false true (Sample.start Sample.root)).
  reflexivity.
Defined.

Lemma tool_absent_refusals_witness :
  create_venv Sample.bare "/venv" (Some "3.11") 300 3
              (Sample.start Sample.root)
  = (false, Sample.start Sample.root).
Proof.
  destruct (tool_absent_refusals Sample.bare "/venv" None (Some "3.11") 300 3
              (Sample.start Sample.root)) as (_ & _ & _ & H & _).
  - reflexivity.
  - exact H.
Defined.

Lemma install_uv_when_installed_witness :
  fst (install_uv Sample.working (Sample.start Sample.root)) = true.
Proof.
  destruct (install_uv_when_installed Sample.working
              (Sample.start Sample.root)) as [H _].
  - reflexivity.
  - exact H.
Defined.

Lemma install_uv_verdict_witness :
  let w := Sample.start Sample.root in
  let r := run_command Sample.bare INSTALLER false DEFAULT_TIMEOUT
                       MAX_RETRIES true w in
  fst (install_uv Sample.bare w) = true <->
  fst r <> None /\ is_uv_installed Sample.bare (snd r) = true.
Proof.
  apply (install_uv_verdict Sample.bare (Sample.start Sample.root)).
  reflexivity.
Defined.

Lemma update_uv_verdict_witness :
  let w := Sample.start Sample.root in
  fst (update_uv Sample.failing w) = true <->
  fst (run_command Sample.failing INSTALLER false DEFAULT_TIMEOUT MAX_RETRIES
                   true (snd (get_uv_version Sample.failing w))) <> None.
Proof.
  apply (update_uv_verdict Sample.failing (Sample.start Sample.root)).
  reflexivity.
Defined.

Lemma install_python_verdict_witness :
  let w := Sample.start Sample.root in
  fst (install_python Sample.working (Some "3.11") w) = true <->
  fst (run_command Sample.working "uv python install 3.11" false
                   DEFAULT_TIMEOUT MAX_RETRIES true w) <> None.
Proof.
  apply (install_python_verdict Sample.working (Some "3.11")
           (Sample.start Sample.root)).
  reflexivity.
Defined.

Lemma listing_never_fails_witness :
  fst (list_python_versions Sample.failing (Sample.start Sample.root)) = true /\
  fst (show_uv_info Sample.failing (Sample.start Sample.root)) = true.
Proof.
  apply (listing_never_fails Sample.failing (Sample.start Sample.root)).
  reflexivity.
Defined.

Lemma interruption_is_never_cleared_witness :
  INTERRUPTED (snd (run_command Sample.failing "uv venv /venv" false 300 3
                                false (Sample.interrupted Sample.root)))
  = true.
Proof.
  destruct (interruption_is_never_cleared Sample.failing
              "uv venv /venv" "/venv" "/src/project" "/venv"
              false false false true None None None 300 3
              (Sample.interrupted Sample.root)) as (H & _).
  - reflexivity.
  - exact H.
Defined.

Lemma run_command_stops_after_signal_witness :
  let w := Sample.start Sample.root in
  let call := shell_args "uv venv /venv" false 300 in
  trace (snd (run_command_loop Sample.interrupting "uv venv /venv" false 300
                               3 true 0 w))
  = [EvRun call; EvSleep 5].
Proof.
  intros w call.
  rewrite (run_command_stops_after_signal Sample.interrupting
             "uv venv /venv" false 300 3 0 w).
  - reflexivity.
  - lia.
  - reflexivity.
  - reflexivity.
  - reflexivity.
Defined.



Lemma clean_cache_age_bounded_frame_witness :
  let w := Sample.start Sample.locked_home in
  FS.lookup ["home"; "dev"; "Agentic"; "notes.txt"]
            (fs (snd (clean_cache Sample.working (Some 1) w)))
  = Some (File 7 "keep" true).
Proof.
  intros w.
  etransitivity;
    [apply (clean_cache_age_bounded_frame Sample.working 1 w
              [("downloads", Dir [("a.whl", File 10 "abc" true)]);
               ("wheels", Dir [("locked.whl", File 5 "x" false)])]
              ["home"; "dev"; "Agentic"] "notes.txt" "cache" [] ["uv"])
    | reflexivity].
  - discriminate.
  - reflexivity.
  - reflexivity.
  - reflexivity.
  - discriminate.
Defined.

Lemma clean_cache_full_wipe_blocked_witness :
  fst (clean_cache Sample.working None (Sample.start Sample.locked_home))
  = false.
Proof.
  destruct (clean_cache_full_wipe_blocked Sample.working None
              (Sample.start Sample.locked_home)
              [("downloads", Dir [("a.whl", File 10 "abc" true)]);
               ("wheels", Dir [("locked.whl", File 5 "x" false)])])
    as [H _].
  - reflexivity.
  - reflexivity.
  - reflexivity.
  - exact H.
Defined.

Lemma get_directory_size_total_witness :
  fst (get_directory_size Sample.working "/home/dev/Agentic/cache/uv"
                          (Sample.start Sample.home)) = 6.
Proof.
  destruct (get_directory_size_total Sample.working
              "/home/dev/Agentic/cache/uv" (Sample.start Sample.home))
    as (_ & _ & _ & H).
  rewrite (H [("downloads", Dir [("a.whl", File 10 "abc" true)]);
              ("wheels", Dir [("stale.whl", File 5 "x" true);
                              ("fresh.whl", File 200000 "yy" true)])]).
  - reflexivity.
  - reflexivity.
  - reflexivity.
Defined.

Lemma clean_cache_full_wipe_frame_witness :
  let w := Sample.start Sample.home in
  FS.lookup ["home"; "dev"; "Agentic"; "logs"]
            (fs (snd (clean_cache Sample.working None w)))
  = None.
Proof.
  intros w.
  etransitivity;
    [apply (clean_cache_full_wipe_frame Sample.working None w
              [("downloads", Dir [("a.whl", File 10 "abc" true)]);
               ("wheels", Dir [("stale.whl", File 5 "x" true);
                               ("fresh.whl", File 200000 "yy" true)])]
              ["home"; "dev"; "Agentic"] "logs" "cache" [] ["uv"])
    | reflexivity].
  - reflexivity.
  - reflexivity.
  - reflexivity.
  - reflexivity.
  - reflexivity.
  - discriminate.
Defined.

Lemma clean_cache_never_grows_witness :
  let w := Sample.start Sample.home in
  fst (get_directory_size Sample.working "/home/dev/Agentic/cache/uv"
         (snd (clean_cache Sample.working (Some 1) w)))
  <= fst (get_directory_size Sample.working "/home/dev/Agentic/cache/uv" w).
Proof.
  intros w.
  apply (clean_cache_never_grows Sample.working 1 w
           [("downloads", Dir [("a.whl", File 10 "abc" true)]);
            ("wheels", Dir [("stale.whl", File 5 "x" true);
                            ("fresh.whl", File 200000 "yy" true)])]).
  - discriminate.
  - reflexivity.
  - reflexivity.
Defined.

Lemma clean_cache_full_wipe_empties_witness :
  let w := Sample.start Sample.home in
  fst (get_directory_size Sample.working "/home/dev/Agentic/cache/uv"
         (snd (clean_cache Sample.working None w))) = 0.
Proof.
  intros w.
  destruct (clean_cache_full_wipe_empties Sample.working None w
              [("downloads", Dir [("a.whl", File 10 "abc" true)]);
               ("wheels", Dir [("stale.whl", File 5 "x" true);
                               ("fresh.whl", File 200000 "yy" true)])])
    as (_ & _ & H).
  - reflexivity.
  - reflexivity.
  - discriminate.
  - reflexivity.
  - reflexivity.
  - exact H.
Defined.

Lemma run_command_outcome_witness :
  exists s,
    Stdout "Python 3.11.4" = Stdout s /\ Py.lstrip s = s /\ Py.rstrip s = s.
Proof.
  apply (run_command_outcome Sample.working "python --version" true 10 1 true
           (Sample.start Sample.root) (Stdout "Python 3.11.4")).
  reflexivity.
Defined.

Lemma get_uv_version_trimmed_witness :
  exists s,
    Stdout "Python 3.11.4" = Stdout s /\ Py.lstrip s = s /\ Py.rstrip s = s.
Proof.
  apply (get_uv_version_trimmed Sample.working (Sample.start Sample.root)
           (Stdout "Python 3.11.4")).
  reflexivity.
Defined.
